(** * CitizenConnect 2.0 API: the complaint registry of [main.py]

    A shallow embedding of the four request handlers of [main.py]
    ([create_complaint], [list_complaints], [update_status], [stats]) and of
    the pydantic models they exchange.  The module-level store [DB] is
    threaded explicitly through every handler; the clock and the random
    UUID read by [create_complaint] are inputs of the handler. *)

From Stdlib Require Import ZArith NArith List String Ascii Bool Lia.
From Stdlib Require Import DecimalString DecimalZ DecimalPos.
From Stdlib Require Import Floats.PrimFloat.
From Stdlib Require Import Sorting.Sorted Sorting.Permutation.
Import ListNotations.

#[local] Open Scope string_scope.
#[local] Open Scope list_scope.

(* ================================================================= *)
(** ** Python values used by the handlers *)

(** Strings: [str(int)], [str.upper], ['%032x' % n] and truthiness. *)
Module Py.

(** [f"{n}"] for an [int]: the decimal numeral, ["-"] in front of a
    negative one, no padding. *)
Definition str_of_int (n : Z) : string :=
  NilZero.string_of_int (Z.to_int n).

(** [str.upper] on one ASCII character: ['a'..'z'] move to ['A'..'Z']. *)
Definition upper_ascii (c : ascii) : ascii :=
  let n := nat_of_ascii c in
  if ((97 <=? n) && (n <=? 122))%nat then ascii_of_nat (n - 32) else c.

Fixpoint upper (s : string) : string :=
  match s with
  | EmptyString => EmptyString
  | String c s' => String (upper_ascii c) (upper s')
  end.

Definition hex_alphabet : list ascii :=
  list_ascii_of_string "0123456789abcdef".

Definition hex_digit (d : N) : ascii :=
  nth (N.to_nat d) hex_alphabet "0"%char.

(** ['%0<width>x' % n] for [0 <= n < 16 ^ width]: exactly [width]
    lowercase hexadecimal digits, most significant first. *)
Fixpoint hex_of (width : nat) (n : N) : string :=
  match width with
  | O => EmptyString
  | S w =>
      (hex_of w (n / 16) ++ String (hex_digit (n mod 16)) EmptyString)%string
  end.

(** The slice [s[:n]]. *)
Definition prefix (n : nat) (s : string) : string := substring 0 n s.

(** Truthiness of a [str]: only the empty string is falsy. *)
Definition str_truthy (s : string) : bool := negb (s =? "").

End Py.

(** [uuid.UUID.hex]: the 128-bit integer of the UUID as 32 hex digits. *)
Definition uuid_hex (int : N) : string := Py.hex_of 32 int.

(** Naive [datetime] objects: seven integer components, ordered as the
    tuple [(year, month, day, hour, minute, second, microsecond)]. *)
Module datetime.

Record t := mk {
  year : Z; month : Z; day : Z;
  hour : Z; minute : Z; second : Z; microsecond : Z
}.

Definition astuple (d : t) : list Z :=
  [year d; month d; day d; hour d; minute d; second d; microsecond d].

Fixpoint tuple_cmp (a b : list Z) : comparison :=
  match a, b with
  | [], [] => Eq
  | [], _ :: _ => Lt
  | _ :: _, [] => Gt
  | x :: a', y :: b' =>
      match (x ?= y)%Z with
      | Eq => tuple_cmp a' b'
      | c => c
      end
  end.

Definition cmp (a b : t) : comparison := tuple_cmp (astuple a) (astuple b).

(** [a < b] *)
Definition ltb (a b : t) : bool :=
  match cmp a b with Lt => true | _ => false end.

(** [a <= b] *)
Definition leb (a b : t) : bool :=
  match cmp a b with Gt => false | _ => true end.

End datetime.

(** Insertion-ordered [dict] with [str] keys: an association list in
    insertion order.  Assigning to a key that is present replaces the value
    in place; assigning to a new key appends. *)
Section Dict.
Context {V : Type}.

Definition dict : Type := list (string * V).

Fixpoint dict_get (k : string) (d : dict) : option V :=
  match d with
  | [] => None
  | (k', v) :: d' => if k' =? k then Some v else dict_get k d'
  end.

(** [d.get(k, default)] *)
Definition dict_get_default (k : string) (default : V) (d : dict) : V :=
  match dict_get k d with
  | Some v => v
  | None => default
  end.

(** [d[k] = v] *)
Fixpoint dict_set (k : string) (v : V) (d : dict) : dict :=
  match d with
  | [] => [(k, v)]
  | (k', v') :: d' =>
      if k' =? k then (k', v) :: d' else (k', v') :: dict_set k v d'
  end.

Definition dict_keys (d : dict) : list string := map fst d.
Definition dict_values (d : dict) : list V := map snd d.
Definition dict_len (d : dict) : nat := List.length d.

(** A list is a [dict] when no key occurs twice. *)
Definition dict_wf (d : dict) : Prop := NoDup (dict_keys d).
End Dict.

Arguments dict V : clear implicits.

(** [list.sort(key=..., reverse=...)] with [datetime] keys.  The sort is
    stable and compares keys with [<] only; with [reverse=True] the list is
    reversed, sorted in ascending order and reversed again, so that equal
    keys keep their original order. *)
Section ListSort.
Context {A : Type} (key : A -> datetime.t).

Fixpoint insort (x : A) (l : list A) : list A :=
  match l with
  | [] => [x]
  | y :: l' =>
      if datetime.ltb (key y) (key x) then y :: insort x l' else x :: l
  end.

Definition sort_ascending (l : list A) : list A := fold_right insort [] l.

Definition list_sort (reverse : bool) (l : list A) : list A :=
  if reverse then rev (sort_ascending (rev l)) else sort_ascending l.
End ListSort.

(* ================================================================= *)
(** ** The [Literal] types *)

Inductive Category :=
| Roads | Water | Electricity | Health | Education
| Sanitation | PublicTransport | WasteManagement | Safety | Others.

Inductive Priority := High | Medium | Low.
Inductive Level := Local | State | Central.
Inductive Status := Pending | InProgress | Resolved.

Definition Category_str (c : Category) : string :=
  match c with
  | Roads => "Roads"
  | Water => "Water"
  | Electricity => "Electricity"
  | Health => "Health"
  | Education => "Education"
  | Sanitation => "Sanitation"
  | PublicTransport => "Public Transport"
  | WasteManagement => "Waste Management"
  | Safety => "Safety"
  | Others => "Others"
  end.

Definition Priority_str (p : Priority) : string :=
  match p with High => "High" | Medium => "Medium" | Low => "Low" end.

Definition Level_str (l : Level) : string :=
  match l with Local => "Local" | State => "State" | Central => "Central" end.

Definition Status_str (s : Status) : string :=
  match s with
  | Pending => "Pending"
  | InProgress => "In Progress"
  | Resolved => "Resolved"
  end.

Definition Category_values : list Category :=
  [Roads; Water; Electricity; Health; Education;
   Sanitation; PublicTransport; WasteManagement; Safety; Others].
Definition Priority_values : list Priority := [High; Medium; Low].
Definition Level_values : list Level := [Local; State; Central].
Definition Status_values : list Status := [Pending; InProgress; Resolved].

(** Validation of a string against a [Literal]: the member it spells. *)
Definition literal_of {E : Type} (str : E -> string) (values : list E)
    (s : string) : option E :=
  find (fun e => str e =? s) values.

Definition Category_of : string -> option Category :=
  literal_of Category_str Category_values.
Definition Priority_of : string -> option Priority :=
  literal_of Priority_str Priority_values.
Definition Level_of : string -> option Level :=
  literal_of Level_str Level_values.

(* ================================================================= *)
(** ** The pydantic models *)

Record Location := mkLocation { lat : float; lng : float }.

Module ComplaintIn.
Record t := mk {
  user_id : string;
  text : string;
  voice_url : option string;
  category : Category;
  priority : Priority;
  level : Level;
  district : option string;
  location : option Location;
  assigned_to : option string
}.
End ComplaintIn.

Module Complaint.
Record t := mk {
  user_id : string;
  text : string;
  voice_url : option string;
  category : Category;
  priority : Priority;
  level : Level;
  district : option string;
  location : option Location;
  assigned_to : option string;
  complaint_id : string;
  status : Status;
  timestamp : datetime.t
}.

(** [Complaint(complaint_id=cid, **payload.model_dump())]: the fields of
    the payload, the given id, the default status and the timestamp the
    default factory reads from the clock. *)
Definition construct (cid : string) (payload : ComplaintIn.t)
    (utcnow : datetime.t) : t :=
  {| user_id := ComplaintIn.user_id payload;
     text := ComplaintIn.text payload;
     voice_url := ComplaintIn.voice_url payload;
     category := ComplaintIn.category payload;
     priority := ComplaintIn.priority payload;
     level := ComplaintIn.level payload;
     district := ComplaintIn.district payload;
     location := ComplaintIn.location payload;
     assigned_to := ComplaintIn.assigned_to payload;
     complaint_id := cid;
     status := Pending;
     timestamp := utcnow |}.

(** [comp.status = s] *)
Definition set_status (comp : t) (s : Status) : t :=
  {| user_id := user_id comp;
     text := text comp;
     voice_url := voice_url comp;
     category := category comp;
     priority := priority comp;
     level := level comp;
     district := district comp;
     location := location comp;
     assigned_to := assigned_to comp;
     complaint_id := complaint_id comp;
     status := s;
     timestamp := timestamp comp |}.

(** The [ComplaintIn] part of a complaint. *)
Definition fields (comp : t) : ComplaintIn.t :=
  {| ComplaintIn.user_id := user_id comp;
     ComplaintIn.text := text comp;
     ComplaintIn.voice_url := voice_url comp;
     ComplaintIn.category := category comp;
     ComplaintIn.priority := priority comp;
     ComplaintIn.level := level comp;
     ComplaintIn.district := district comp;
     ComplaintIn.location := location comp;
     ComplaintIn.assigned_to := assigned_to comp |}.
End Complaint.

Record StatusUpdate := mkStatusUpdate { new_status : Status }.

(** The store: [DB: Dict[str, Complaint]]. *)
Definition DB : Type := dict Complaint.t.

Definition DB_empty : DB := [].

(* ================================================================= *)
(** ** The handlers *)

Record HTTPException := mkHTTPException {
  status_code : Z;
  detail : string
}.

(** What [create_complaint] reads from outside: the clock when the id is
    formatted, the integer of the UUID drawn by [uuid.uuid4()], and the
    clock again when the default factory stamps the record. *)
Record CreateEnv := mkCreateEnv {
  utcnow_for_id : datetime.t;
  uuid4_int : N;
  utcnow_for_timestamp : datetime.t
}.

(** [f"CC{datetime.utcnow().year}-{uuid.uuid4().hex[:6].upper()}"] *)
Definition make_cid (env : CreateEnv) : string :=
  ("CC" ++ Py.str_of_int (datetime.year (utcnow_for_id env)) ++ "-"
        ++ Py.upper (Py.prefix 6 (uuid_hex (uuid4_int env))))%string.

Definition create_complaint (env : CreateEnv) (payload : ComplaintIn.t)
    (db : DB) : Complaint.t * DB :=
  let cid := make_cid env in
  let comp := Complaint.construct cid payload (utcnow_for_timestamp env) in
  (comp, dict_set cid comp db).

Definition list_complaints (status : option Status) (db : DB)
    : list Complaint.t :=
  let items := dict_values db in
  let items :=
    match status with
    | Some s =>
        if Py.str_truthy (Status_str s)
        then filter (fun c => Status_str (Complaint.status c) =? Status_str s)
                    items
        else items
    | None => items
    end in
  list_sort Complaint.timestamp true items.

Definition update_status (complaint_id : string) (payload : StatusUpdate)
    (db : DB) : (HTTPException + Complaint.t) * DB :=
  match dict_get complaint_id db with
  | None => (inl (mkHTTPException 404 "Complaint not found"), db)
  | Some comp =>
      let comp := Complaint.set_status comp (new_status payload) in
      (inr comp, dict_set complaint_id comp db)
  end.

Record StatsResult := mkStats {
  total : nat;
  pending : nat;
  in_progress : nat;
  resolved : nat;
  by_category : dict nat
}.

(** One turn of the loop over [DB.values()] that fills [by_category]. *)
Definition count_category (acc : dict nat) (c : Complaint.t) : dict nat :=
  let k := Category_str (Complaint.category c) in
  dict_set k (dict_get_default k 0 acc + 1) acc.

Definition with_status (s : string) (db : DB) : list Complaint.t :=
  filter (fun c => Status_str (Complaint.status c) =? s) (dict_values db).

Definition stats (db : DB) : StatsResult :=
  {| total := dict_len db;
     pending := List.length (with_status "Pending" db);
     in_progress := List.length (with_status "In Progress" db);
     resolved := List.length (with_status "Resolved" db);
     by_category := fold_left count_category (dict_values db) [] |}.

(* ================================================================= *)
(** ** Request validation in front of [create_complaint]

    The framework builds the [ComplaintIn] payload from the JSON body before
    the handler runs.  Each field is validated against its declared type,
    in lax mode: the validator takes a value of the type and also a value
    it can convert to the type.  A [str] field takes a JSON string only; a
    [float] field, as [lat] and [lng] of [Location], takes a JSON number
    and also a string that spells a number, such as ["12.5"].

    [Field] records the outcome of that step for one field: the key is
    missing (or [null]); the value is one the declared type does not
    accept; or the value is accepted, and then [Given] carries the value
    after conversion.  A [Literal] field carries the string that was sent,
    which is checked against the closed set below. *)

Inductive Field (A : Type) :=
| Missing
| Rejected
| Given (a : A).

Arguments Missing {A}.
Arguments Rejected {A}.
Arguments Given {A} a.

Module ComplaintBody.
Record t := mk {
  user_id : Field string;
  text : Field string;
  voice_url : Field string;
  category : Field string;
  priority : Field string;
  level : Field string;
  district : Field string;
  location : Field Location;
  assigned_to : Field string
}.
End ComplaintBody.

(** The outcome of validating one field: the value, or the names of the
    fields at fault. *)
Definition Validated (A : Type) : Type := (list string + A)%type.

(** A field declared without a default. *)
Definition required {A : Type} (loc : string) (f : Field A) : Validated A :=
  match f with
  | Given a => inr a
  | Missing | Rejected => inl [loc]
  end.

(** A field declared [Optional[...] = None]. *)
Definition optional {A : Type} (loc : string) (f : Field A)
    : Validated (option A) :=
  match f with
  | Missing => inr None
  | Given a => inr (Some a)
  | Rejected => inl [loc]
  end.

(** A required field declared with a [Literal] type. *)
Definition literal {E : Type} (of_str : string -> option E) (loc : string)
    (f : Field string) : Validated E :=
  match f with
  | Given s =>
      match of_str s with
      | Some e => inr e
      | None => inl [loc]
      end
  | Missing | Rejected => inl [loc]
  end.

(** Validation goes through every field and reports all faults. *)
Definition vapply {A B : Type} (f : Validated (A -> B)) (x : Validated A)
    : Validated B :=
  match f, x with
  | inr f, inr x => inr (f x)
  | inl e, inr _ => inl e
  | inr _, inl e => inl e
  | inl e1, inl e2 => inl (e1 ++ e2)
  end.

Definition validate_ComplaintIn (body : ComplaintBody.t)
    : Validated ComplaintIn.t :=
  vapply (vapply (vapply (vapply (vapply (vapply (vapply (vapply (vapply
    (inr ComplaintIn.mk)
    (required "user_id" (ComplaintBody.user_id body)))
    (required "text" (ComplaintBody.text body)))
    (optional "voice_url" (ComplaintBody.voice_url body)))
    (literal Category_of "category" (ComplaintBody.category body)))
    (literal Priority_of "priority" (ComplaintBody.priority body)))
    (literal Level_of "level" (ComplaintBody.level body)))
    (optional "district" (ComplaintBody.district body)))
    (optional "location" (ComplaintBody.location body)))
    (optional "assigned_to" (ComplaintBody.assigned_to body)).

(** The answer to a body that fails validation: 422 and the fields. *)
Record RequestValidationError := mkRequestValidationError {
  validation_status_code : Z;
  validation_detail : list string
}.

(** [POST /complaints]: validation, then the handler. *)
Definition post_complaints (env : CreateEnv) (body : ComplaintBody.t)
    (db : DB) : (RequestValidationError + Complaint.t) * DB :=
  match validate_ComplaintIn body with
  | inl locs => (inl (mkRequestValidationError 422 locs), db)
  | inr payload =>
      let (comp, db') := create_complaint env payload db in
      (inr comp, db')
  end.

(* ================================================================= *)
(** ** Predicates of the specification *)

Definition is_digit (c : ascii) : bool :=
  let n := nat_of_ascii c in ((48 <=? n) && (n <=? 57))%nat.

Definition is_lower_hex (c : ascii) : bool :=
  let n := nat_of_ascii c in
  is_digit c || ((97 <=? n) && (n <=? 102))%nat.

Definition is_upper_hex (c : ascii) : bool :=
  let n := nat_of_ascii c in
  is_digit c || ((65 <=? n) && (n <=? 70))%nat.

Fixpoint string_forall (P : ascii -> bool) (s : string) : bool :=
  match s with
  | EmptyString => true
  | String c s' => P c && string_forall P s'
  end.

Definition is_four_digits (s : string) : bool :=
  (String.length s =? 4)%nat && string_forall is_digit s.

(** The years that are written with four digits. *)
Definition four_digit_years : list Z :=
  map (fun k => (1000 + Z.of_nat k)%Z) (seq 0 (Z.to_nat 9000)).

(** The shape [CC<4 digits>-<6 uppercase hex digits>]. *)
Definition cid_format (s : string) : bool :=
  match list_ascii_of_string s with
  | [c1; c2; y1; y2; y3; y4; dash; h1; h2; h3; h4; h5; h6] =>
      (c1 =? "C")%char && (c2 =? "C")%char
      && forallb is_digit [y1; y2; y3; y4]
      && (dash =? "-")%char
      && forallb is_upper_hex [h1; h2; h3; h4; h5; h6]
  | _ => false
  end.

(** A [Literal] field of the body lies inside its closed set. *)
Definition in_literal {E : Type} (of_str : string -> option E)
    (f : Field string) : bool :=
  match f with
  | Given s => match of_str s with Some _ => true | None => false end
  | Missing | Rejected => false
  end.

Definition enums_valid (body : ComplaintBody.t) : bool :=
  in_literal Category_of (ComplaintBody.category body)
  && in_literal Priority_of (ComplaintBody.priority body)
  && in_literal Level_of (ComplaintBody.level body).

Definition is_given {A : Type} (f : Field A) : bool :=
  match f with Given _ => true | _ => false end.

Definition not_rejected {A : Type} (f : Field A) : bool :=
  match f with Rejected => false | _ => true end.

(** The fields of the body other than the three enumerations are well
    formed: the required ones are given, the optional ones are not of a
    kind their type rejects. *)
Definition others_valid (body : ComplaintBody.t) : bool :=
  is_given (ComplaintBody.user_id body)
  && is_given (ComplaintBody.text body)
  && not_rejected (ComplaintBody.voice_url body)
  && not_rejected (ComplaintBody.district body)
  && not_rejected (ComplaintBody.location body)
  && not_rejected (ComplaintBody.assigned_to body).

(** The two orders a sort by key can leave between an element and a later
    one. *)
Definition ascending_by {A : Type} (key : A -> datetime.t) (a b : A) : Prop :=
  datetime.leb (key a) (key b) = true.

Definition descending_by {A : Type} (key : A -> datetime.t) (a b : A) : Prop :=
  datetime.leb (key b) (key a) = true.

(** Descending order of timestamps: every element is at least as new as
    every element after it. *)
Definition newest_first (l : list Complaint.t) : Prop :=
  StronglySorted (descending_by Complaint.timestamp) l.

Definition has_status (s : Status) (c : Complaint.t) : bool :=
  match Complaint.status c, s with
  | Pending, Pending | InProgress, InProgress | Resolved, Resolved => true
  | _, _ => false
  end.

Definition Category_eqb (a b : Category) : bool :=
  match a, b with
  | Roads, Roads | Water, Water | Electricity, Electricity
  | Health, Health | Education, Education | Sanitation, Sanitation
  | PublicTransport, PublicTransport | WasteManagement, WasteManagement
  | Safety, Safety | Others, Others => true
  | _, _ => false
  end.

(** The number of stored complaints of a category. *)
Definition count_in_category (cat : Category) (db : DB) : nat :=
  List.length
    (filter (fun c => Category_eqb (Complaint.category c) cat)
            (dict_values db)).

Definition count_with_status (s : Status) (db : DB) : nat :=
  List.length (filter (has_status s) (dict_values db)).

Definition sum_values (d : dict nat) : nat :=
  fold_right Nat.add 0 (dict_values d).

(** The fields at fault in a validation outcome, and whether there are
    none. *)
Definition faults {A : Type} (x : Validated A) : list string :=
  match x with inl e => e | inr _ => [] end.

Definition is_valid {A : Type} (x : Validated A) : bool :=
  match x with inl _ => false | inr _ => true end.

(** The stores the handlers can produce, starting from the empty one. *)
Inductive reachable : DB -> Prop :=
| reachable_empty : reachable DB_empty
| reachable_create env payload db :
    reachable db -> reachable (snd (create_complaint env payload db))
| reachable_update complaint_id payload db :
    reachable db -> reachable (snd (update_status complaint_id payload db)).

(** Every record is stored under its own [complaint_id]. *)
Definition keyed_by_id (db : DB) : Prop :=
  forall k c, In (k, c) db -> Complaint.complaint_id c = k.

(* ================================================================= *)
(** ** Sample requests *)

Definition sample_payload (cat : Category) : ComplaintIn.t :=
  {| ComplaintIn.user_id := "u-17";
     ComplaintIn.text := "street light broken";
     ComplaintIn.voice_url := None;
     ComplaintIn.category := cat;
     ComplaintIn.priority := Medium;
     ComplaintIn.level := Local;
     ComplaintIn.district := Some "North";
     ComplaintIn.location := None;
     ComplaintIn.assigned_to := None |}.

Definition sample_clock (sec : Z) : datetime.t :=
  datetime.mk 2026 11 4 10 0 sec 0.

(** A version-4 UUID whose six leading hex digits are those of [top] and
    whose remaining random bits are those of [low]. *)
Definition sample_uuid (top low : N) : N :=
  (top * 2 ^ 104 + 0x40008000000000000000 + low)%N.

(** A request served at second [sec] that draws [sample_uuid top 0]. *)
Definition sample_env (top : N) (sec : Z) : CreateEnv :=
  mkCreateEnv (sample_clock sec) (sample_uuid top 0) (sample_clock sec).

(** The store after three requests: Roads, Roads, Water. *)
Definition sample_requests : DB :=
  let db1 := snd (create_complaint (sample_env 0xA1B2C3 1)
                                   (sample_payload Roads) DB_empty) in
  let db2 := snd (create_complaint (sample_env 0x00FF10 2)
                                   (sample_payload Roads) db1) in
  snd (create_complaint (sample_env 0x5E5E5E 3) (sample_payload Water) db2).

Definition sample_db : DB := Eval vm_compute in sample_requests.

Definition sample_body : ComplaintBody.t :=
  {| ComplaintBody.user_id := Given "u-17";
     ComplaintBody.text := Given "street light broken";
     ComplaintBody.voice_url := Missing;
     ComplaintBody.category := Given "Electricity";
     ComplaintBody.priority := Given "High";
     ComplaintBody.level := Given "Local";
     ComplaintBody.district := Given "North";
     ComplaintBody.location := Missing;
     ComplaintBody.assigned_to := Missing |}.

(** A body with the three enumerations in range and no [user_id]. *)
Definition body_without_user_id : ComplaintBody.t :=
  {| ComplaintBody.user_id := Missing;
     ComplaintBody.text := Given "street light broken";
     ComplaintBody.voice_url := Missing;
     ComplaintBody.category := Given "Electricity";
     ComplaintBody.priority := Given "High";
     ComplaintBody.level := Given "Local";
     ComplaintBody.district := Missing;
     ComplaintBody.location := Missing;
     ComplaintBody.assigned_to := Missing |}.

(** The body whose [location] is [{"lat": "12.5", "lng": "77"}]: the two
    strings spell numbers, so the validator accepts them and the payload
    holds the numbers. *)
Definition body_with_numeric_strings : ComplaintBody.t :=
  {| ComplaintBody.user_id := Given "u-17";
     ComplaintBody.text := Given "street light broken";
     ComplaintBody.voice_url := Missing;
     ComplaintBody.category := Given "Electricity";
     ComplaintBody.priority := Given "High";
     ComplaintBody.level := Given "Local";
     ComplaintBody.district := Missing;
     ComplaintBody.location := Given (mkLocation 12.5%float 77%float);
     ComplaintBody.assigned_to := Missing |}.

(** A body whose category is not one of the ten. *)
Definition body_with_unknown_category : ComplaintBody.t :=
  {| ComplaintBody.user_id := Given "u-17";
     ComplaintBody.text := Given "street light broken";
     ComplaintBody.voice_url := Missing;
     ComplaintBody.category := Given "Parks";
     ComplaintBody.priority := Given "High";
     ComplaintBody.level := Given "Local";
     ComplaintBody.district := Missing;
     ComplaintBody.location := Missing;
     ComplaintBody.assigned_to := Missing |}.

(** Two requests in the same year whose UUIDs differ but share their six
    leading hex digits. *)
Definition colliding_env1 : CreateEnv :=
  mkCreateEnv (sample_clock 1) (sample_uuid 0xA1B2C3 0x1111) (sample_clock 1).
Definition colliding_env2 : CreateEnv :=
  mkCreateEnv (sample_clock 2) (sample_uuid 0xA1B2C3 0x2222) (sample_clock 2).

(* ================================================================= *)
(** ** Further predicates *)

(** [a == b] on [datetime]. *)
Definition datetime_eqb (a b : datetime.t) : bool :=
  match datetime.cmp a b with Eq => true | _ => false end.

(** The complaints stamped with the instant [t]. *)
Definition filed_at (t : datetime.t) (c : Complaint.t) : bool :=
  datetime_eqb (Complaint.timestamp c) t.

(** The stored complaints a status filter lets through, in the order of
    the store. *)
Definition selected (status : option Status) (db : DB) : list Complaint.t :=
  match status with
  | None => dict_values db
  | Some s => filter (has_status s) (dict_values db)
  end.

(** Two records that differ at most in their status. *)
Definition same_but_status (a b : Complaint.t) : Prop :=
  Complaint.complaint_id a = Complaint.complaint_id b
  /\ Complaint.timestamp a = Complaint.timestamp b
  /\ Complaint.fields a = Complaint.fields b.

(** The counter of [stats] that belongs to a status. *)
Definition stats_count (s : Status) (st : StatsResult) : nat :=
  match s with
  | Pending => pending st
  | InProgress => in_progress st
  | Resolved => resolved st
  end.

Definition Status_eqb (a b : Status) : bool :=
  match a, b with
  | Pending, Pending | InProgress, InProgress | Resolved, Resolved => true
  | _, _ => false
  end.

(** [int(s)] for a decimal numeral. *)
Definition int_of_str (s : string) : option Z :=
  option_map Z.of_int (NilZero.int_of_string s).

(** The value of one hexadecimal digit, in either case. *)
Definition hex_digit_value (c : ascii) : N :=
  let n := N_of_ascii c in
  if is_digit c then (n - 48)%N
  else if is_upper_hex c then (n - 55)%N
  else if is_lower_hex c then (n - 87)%N
  else 0%N.

(** [int(s, 16)] for a string of hexadecimal digits. *)
Fixpoint int_of_hex_from (acc : N) (s : string) : N :=
  match s with
  | EmptyString => acc
  | String c s' => int_of_hex_from (16 * acc + hex_digit_value c)%N s'
  end.

Definition int_of_hex (s : string) : N := int_of_hex_from 0 s.

(** The stores that calls of the handlers lead to from a given store.
    ([list_complaints] and [stats] leave the store as it is.) *)
Inductive evolves (db : DB) : DB -> Prop :=
| evolves_refl : evolves db db
| evolves_create env payload db' :
    evolves db db' ->
    evolves db (snd (create_complaint env payload db'))
| evolves_update complaint_id payload db' :
    evolves db db' ->
    evolves db (snd (update_status complaint_id payload db')).

(** [payload.model_dump()], as the body that carries the same fields: an
    optional field that is [None] is left out. *)
Definition dump_optional {A : Type} (o : option A) : Field A :=
  match o with
  | Some a => Given a
  | None => Missing
  end.

Definition model_dump (payload : ComplaintIn.t) : ComplaintBody.t :=
  {| ComplaintBody.user_id := Given (ComplaintIn.user_id payload);
     ComplaintBody.text := Given (ComplaintIn.text payload);
     ComplaintBody.voice_url := dump_optional (ComplaintIn.voice_url payload);
     ComplaintBody.category :=
       Given (Category_str (ComplaintIn.category payload));
     ComplaintBody.priority :=
       Given (Priority_str (ComplaintIn.priority payload));
     ComplaintBody.level := Given (Level_str (ComplaintIn.level payload));
     ComplaintBody.district := dump_optional (ComplaintIn.district payload);
     ComplaintBody.location := dump_optional (ComplaintIn.location payload);
     ComplaintBody.assigned_to :=
       dump_optional (ComplaintIn.assigned_to payload) |}.

(** Timestamps that strictly increase along a list of complaints. *)
Definition strictly_older (a b : Complaint.t) : Prop :=
  datetime.ltb (Complaint.timestamp a) (Complaint.timestamp b) = true.

(* ================================================================= *)
(** ** Facts about [dict] *)

Section DictFacts.
Context {V : Type}.
Implicit Types (d : dict V) (k : string) (v : V).

Lemma dict_get_set_same d k v : dict_get k (dict_set k v d) = Some v.
Proof.
  induction d as [|[k' v'] d IH]; simpl.
  - now rewrite String.eqb_refl.
  - destruct (k' =? k) eqn:E; simpl; rewrite E; auto.
Qed.

Lemma dict_get_set_other d k k' v :
  k' <> k -> dict_get k' (dict_set k v d) = dict_get k' d.
Proof.
  intros Hne. induction d as [|[k0 v0] d IH]; simpl.
  - destruct (String.eqb_spec k k'); congruence.
  - destruct (String.eqb_spec k0 k) as [->|Hk]; simpl.
    + destruct (String.eqb_spec k k'); congruence.
    + destruct (k0 =? k'); auto.
Qed.

Lemma dict_get_None_iff d k : dict_get k d = None <-> ~ In k (dict_keys d).
Proof.
  induction d as [|[k' v'] d IH]; simpl.
  - tauto.
  - destruct (String.eqb_spec k' k) as [->|Hk].
    + split; [discriminate | tauto].
    + rewrite IH. tauto.
Qed.

Lemma dict_get_Some_In d k v : dict_get k d = Some v -> In (k, v) d.
Proof.
  induction d as [|[k' v'] d IH]; simpl; [discriminate|].
  destruct (String.eqb_spec k' k) as [->|Hk].
  - intros [= ->]. now left.
  - auto.
Qed.

Lemma dict_set_absent d k v :
  dict_get k d = None -> dict_set k v d = d ++ [(k, v)].
Proof.
  induction d as [|[k' v'] d IH]; simpl; [reflexivity|].
  destruct (k' =? k); [discriminate|].
  intros H. now rewrite IH.
Qed.

Lemma dict_keys_set_present d k v :
  dict_get k d <> None -> dict_keys (dict_set k v d) = dict_keys d.
Proof.
  induction d as [|[k' v'] d IH]; simpl; [congruence|].
  destruct (k' =? k); simpl; [reflexivity|].
  intros H. now rewrite IH.
Qed.

Lemma dict_len_set_present d k v :
  dict_get k d <> None -> dict_len (dict_set k v d) = dict_len d.
Proof.
  intros H. unfold dict_len.
  rewrite <- (length_map fst (dict_set k v d)), <- (length_map fst d).
  f_equal. now apply dict_keys_set_present.
Qed.

Lemma dict_wf_set d k v : dict_wf d -> dict_wf (dict_set k v d).
Proof.
  unfold dict_wf. destruct (dict_get k d) eqn:E.
  - rewrite dict_keys_set_present; congruence.
  - rewrite dict_set_absent by assumption.
    unfold dict_keys. rewrite map_app. simpl. intros H.
    apply NoDup_app; [assumption | repeat constructor; auto | ].
    intros x Hx [<-|[]]. now apply dict_get_None_iff in E.
Qed.

(** Assigning to a key leaves every other position of the store as it
    was. *)
Lemma dict_set_other_entries d k v k' v' :
  k' <> k -> In (k', v') d -> In (k', v') (dict_set k v d).
Proof.
  intros Hne. induction d as [|[k0 v0] d IH]; simpl; [tauto|].
  destruct (String.eqb_spec k0 k) as [->|Hk]; simpl.
  - intros [[= <- <-]|H]; [congruence | now right].
  - intros [H|H]; [now left | right; auto].
Qed.
End DictFacts.

(* ================================================================= *)
(** ** [update_status] *)

(** C1: [update_status] answers 404 "Complaint not found" exactly when the
    id is not a key of the store (and then leaves the store alone); when the
    id is a key, it returns the stored record with its status overwritten by
    the requested one, and the store holds that record under the id. *)
Theorem update_status_not_found_iff_absent
    (db db' : DB) (complaint_id : string) (payload : StatusUpdate)
    (answer : HTTPException + Complaint.t) :
  update_status complaint_id payload db = (answer, db') ->
  (answer = inl (mkHTTPException 404 "Complaint not found")
     <-> ~ In complaint_id (dict_keys db))
  /\ ((exists e, answer = inl e) <-> ~ In complaint_id (dict_keys db))
  /\ (~ In complaint_id (dict_keys db) -> db' = db)
  /\ (In complaint_id (dict_keys db) ->
        exists comp,
          dict_get complaint_id db = Some comp
          /\ answer = inr (Complaint.set_status comp (new_status payload))
          /\ Complaint.status
               (Complaint.set_status comp (new_status payload))
             = new_status payload
          /\ dict_get complaint_id db'
             = Some (Complaint.set_status comp (new_status payload))).
Proof.
  unfold update_status.
  destruct (dict_get complaint_id db) as [comp|] eqn:E; intros [= <- <-].
  - assert (Hin : ~ ~ In complaint_id (dict_keys db)).
    { rewrite <- dict_get_None_iff. congruence. }
    split; [split; [discriminate | tauto]|].
    split; [split; [intros [e He]; discriminate | tauto]|].
    split; [tauto|].
    intros _. exists comp. repeat split. apply dict_get_set_same.
  - assert (Hout : ~ In complaint_id (dict_keys db)).
    { now apply dict_get_None_iff. }
    split; [tauto|].
    split; [split; [tauto | intros _; eauto]|].
    split; [reflexivity | tauto].
Qed.

Lemma update_status_not_found_iff_absent_witness :
  let db := sample_db in
  let r := update_status "CC2026-00FF10" (mkStatusUpdate Resolved) db in
  In "CC2026-00FF10" (dict_keys db)
  /\ exists comp,
       dict_get "CC2026-00FF10" db = Some comp
       /\ fst r = inr (Complaint.set_status comp Resolved)
       /\ dict_get "CC2026-00FF10" (snd r)
          = Some (Complaint.set_status comp Resolved).
Proof.
  intros db r.
  assert (Hin : In "CC2026-00FF10" (dict_keys db))
    by (right; left; reflexivity).
  split; [exact Hin|].
  destruct (update_status_not_found_iff_absent db (snd r) "CC2026-00FF10"
              (mkStatusUpdate Resolved) (fst r) eq_refl)
    as (_ & _ & _ & H).
  destruct (H Hin) as (comp & Hget & Hans & _ & Hstored).
  exists comp. auto.
Defined.

Lemma Complaint_ext (a b : Complaint.t) :
  Complaint.fields a = Complaint.fields b ->
  Complaint.complaint_id a = Complaint.complaint_id b ->
  Complaint.status a = Complaint.status b ->
  Complaint.timestamp a = Complaint.timestamp b ->
  a = b.
Proof.
  destruct a, b; simpl. intros [= -> -> -> -> -> -> -> -> ->] -> -> ->.
  reflexivity.
Qed.

(** C2: on an id of the store, [update_status] touches the status of the
    record under that id and nothing else: the record keeps its
    [complaint_id], its [timestamp] and all submitted fields, every other id
    still maps to the record it mapped to, and the keys of the store and
    their order are the same. *)
Theorem update_status_changes_only_status
    (db db' : DB) (complaint_id : string) (payload : StatusUpdate)
    (comp : Complaint.t) (answer : HTTPException + Complaint.t) :
  dict_get complaint_id db = Some comp ->
  update_status complaint_id payload db = (answer, db') ->
  exists comp',
    answer = inr comp'
    /\ dict_get complaint_id db' = Some comp'
    /\ Complaint.status comp' = new_status payload
    /\ Complaint.complaint_id comp' = Complaint.complaint_id comp
    /\ Complaint.timestamp comp' = Complaint.timestamp comp
    /\ Complaint.fields comp' = Complaint.fields comp
    /\ (forall other, other <> complaint_id ->
          dict_get other db' = dict_get other db)
    /\ dict_keys db' = dict_keys db.
Proof.
  intros Hget. unfold update_status. rewrite Hget. intros [= <- <-].
  exists (Complaint.set_status comp (new_status payload)).
  split; [reflexivity|].
  split; [apply dict_get_set_same|].
  do 4 (split; [reflexivity|]).
  split.
  - intros other Hne. now apply dict_get_set_other.
  - apply dict_keys_set_present. congruence.
Qed.

Lemma update_status_changes_only_status_witness :
  let db := sample_db in
  let r := update_status "CC2026-00FF10" (mkStatusUpdate InProgress) db in
  exists comp comp',
    dict_get "CC2026-00FF10" db = Some comp
    /\ fst r = inr comp'
    /\ Complaint.status comp' = InProgress
    /\ Complaint.timestamp comp' = Complaint.timestamp comp
    /\ dict_get "CC2026-A1B2C3" (snd r) = dict_get "CC2026-A1B2C3" db.
Proof.
  intros db r.
  destruct (dict_get "CC2026-00FF10" db) as [comp|] eqn:Hget;
    [|discriminate Hget].
  destruct (update_status_changes_only_status db (snd r) "CC2026-00FF10"
              (mkStatusUpdate InProgress) comp (fst r) Hget eq_refl)
    as (comp' & Hans & _ & Hst & _ & Hts & _ & Hother & _).
  exists comp, comp'. repeat split; auto.
Defined.

(* ================================================================= *)
(** ** The order on [datetime] *)

Lemma tuple_cmp_refl (a : list Z) : datetime.tuple_cmp a a = Eq.
Proof.
  induction a as [|x a IH]; simpl; [reflexivity|].
  now rewrite Z.compare_refl.
Qed.

Lemma tuple_cmp_antisym (a b : list Z) :
  datetime.tuple_cmp b a = CompOpp (datetime.tuple_cmp a b).
Proof.
  revert b. induction a as [|x a IH]; intros [|y b]; simpl; try reflexivity.
  rewrite (Z.compare_antisym x y).
  destruct (x ?= y)%Z; simpl; auto.
Qed.

Lemma tuple_cmp_trans (a b c : list Z) :
  datetime.tuple_cmp a b <> Gt ->
  datetime.tuple_cmp b c <> Gt ->
  datetime.tuple_cmp a c <> Gt.
Proof.
  revert b c.
  induction a as [|x a IH]; intros [|y b] [|z c]; simpl; try congruence.
  destruct (Z.compare_spec x y), (Z.compare_spec y z), (Z.compare_spec x z);
    subst; try lia; try congruence; eauto.
Qed.

Lemma datetime_leb_refl (a : datetime.t) : datetime.leb a a = true.
Proof. unfold datetime.leb, datetime.cmp. now rewrite tuple_cmp_refl. Qed.

Lemma datetime_leb_trans (a b c : datetime.t) :
  datetime.leb a b = true -> datetime.leb b c = true ->
  datetime.leb a c = true.
Proof.
  unfold datetime.leb, datetime.cmp. intros Hab Hbc.
  pose proof (tuple_cmp_trans (datetime.astuple a) (datetime.astuple b)
                (datetime.astuple c)) as H.
  destruct (datetime.tuple_cmp (datetime.astuple a) (datetime.astuple b));
    destruct (datetime.tuple_cmp (datetime.astuple b) (datetime.astuple c));
    destruct (datetime.tuple_cmp (datetime.astuple a) (datetime.astuple c));
    try reflexivity; try discriminate; exfalso; apply H; congruence.
Qed.

Lemma datetime_ltb_leb (a b : datetime.t) :
  datetime.ltb a b = true -> datetime.leb a b = true.
Proof.
  unfold datetime.ltb, datetime.leb. now destruct (datetime.cmp a b).
Qed.

Lemma datetime_not_ltb_leb (a b : datetime.t) :
  datetime.ltb a b = false -> datetime.leb b a = true.
Proof.
  unfold datetime.ltb, datetime.leb, datetime.cmp.
  rewrite (tuple_cmp_antisym (datetime.astuple a) (datetime.astuple b)).
  now destruct (datetime.tuple_cmp (datetime.astuple a) (datetime.astuple b)).
Qed.

Lemma datetime_ltb_asym (a b : datetime.t) :
  datetime.ltb a b = true -> datetime.ltb b a = false.
Proof.
  unfold datetime.ltb, datetime.cmp.
  rewrite (tuple_cmp_antisym (datetime.astuple a) (datetime.astuple b)).
  now destruct (datetime.tuple_cmp (datetime.astuple a) (datetime.astuple b)).
Qed.

Lemma tuple_cmp_lt_trans (a b c : list Z) :
  datetime.tuple_cmp a b = Lt ->
  datetime.tuple_cmp b c = Lt ->
  datetime.tuple_cmp a c = Lt.
Proof.
  revert b c.
  induction a as [|x a IH]; intros [|y b] [|z c]; simpl; try congruence.
  destruct (Z.compare_spec x y), (Z.compare_spec y z), (Z.compare_spec x z);
    subst; try lia; try congruence; eauto.
Qed.

Lemma datetime_ltb_trans (a b c : datetime.t) :
  datetime.ltb a b = true -> datetime.ltb b c = true ->
  datetime.ltb a c = true.
Proof.
  unfold datetime.ltb, datetime.cmp. intros Hab Hbc.
  rewrite (tuple_cmp_lt_trans (datetime.astuple a) (datetime.astuple b)
             (datetime.astuple c)); [reflexivity| |].
  - now destruct (datetime.tuple_cmp (datetime.astuple a) (datetime.astuple b)).
  - now destruct (datetime.tuple_cmp (datetime.astuple b) (datetime.astuple c)).
Qed.

(* ================================================================= *)
(** ** [list.sort] *)

Section ListSortFacts.
Context {A : Type} (key : A -> datetime.t).


Lemma insort_Permutation (x : A) (l : list A) :
  Permutation (insort key x l) (x :: l).
Proof.
  induction l as [|y l IH]; simpl; [reflexivity|].
  destruct (datetime.ltb (key y) (key x)); [|reflexivity].
  rewrite IH. apply perm_swap.
Qed.

Lemma sort_ascending_Permutation (l : list A) :
  Permutation (sort_ascending key l) l.
Proof.
  induction l as [|x l IH]; simpl; [reflexivity|].
  rewrite insort_Permutation. now constructor.
Qed.

Lemma insort_sorted (x : A) (l : list A) :
  StronglySorted (ascending_by key) l ->
  StronglySorted (ascending_by key) (insort key x l).
Proof.
  induction 1 as [|y l Hs IH Hy]; simpl.
  - repeat constructor.
  - destruct (datetime.ltb (key y) (key x)) eqn:E.
    + constructor; [assumption|].
      rewrite insort_Permutation. constructor; [|assumption].
      now apply datetime_ltb_leb.
    + apply datetime_not_ltb_leb in E.
      constructor; [now constructor|].
      constructor; [exact E|].
      eapply Forall_impl; [|exact Hy].
      intros z Hz. eapply datetime_leb_trans; eassumption.
Qed.

Lemma sort_ascending_sorted (l : list A) :
  StronglySorted (ascending_by key) (sort_ascending key l).
Proof.
  induction l as [|x l IH]; simpl; [constructor|].
  now apply insort_sorted.
Qed.

Lemma StronglySorted_snoc (R : A -> A -> Prop) (l : list A) (x : A) :
  StronglySorted R l -> Forall (fun y => R y x) l ->
  StronglySorted R (l ++ [x]).
Proof.
  induction 1 as [|y l Hs IH Hy]; simpl; intros Hall.
  - repeat constructor.
  - inversion Hall; subst. constructor; [auto|].
    apply Forall_app. split; [assumption | now constructor].
Qed.

Lemma StronglySorted_rev (R : A -> A -> Prop) (l : list A) :
  StronglySorted R l -> StronglySorted (fun a b => R b a) (rev l).
Proof.
  induction 1 as [|y l Hs IH Hy]; simpl; [constructor|].
  apply StronglySorted_snoc; [assumption|].
  apply Forall_rev. exact Hy.
Qed.

Lemma list_sort_Permutation (reverse : bool) (l : list A) :
  Permutation (list_sort key reverse l) l.
Proof.
  unfold list_sort. destruct reverse.
  - rewrite <- Permutation_rev, sort_ascending_Permutation.
    symmetry. apply Permutation_rev.
  - apply sort_ascending_Permutation.
Qed.

Lemma list_sort_reverse_sorted (l : list A) :
  StronglySorted (descending_by key) (list_sort key true l).
Proof.
  unfold list_sort.
  apply (StronglySorted_rev (ascending_by key)), sort_ascending_sorted.
Qed.

Lemma list_sort_forward_sorted (l : list A) :
  StronglySorted (ascending_by key) (list_sort key false l).
Proof. apply sort_ascending_sorted. Qed.

(** Three elements with increasing keys come back in the opposite
    order. *)
Lemma list_sort_reverse_three (a b c : A) :
  datetime.ltb (key a) (key b) = true ->
  datetime.ltb (key b) (key c) = true ->
  list_sort key true [a; b; c] = [c; b; a].
Proof.
  intros Hab Hbc. unfold list_sort, sort_ascending. simpl.
  rewrite Hab. simpl.
  rewrite (datetime_ltb_trans _ _ _ Hab Hbc), Hbc. reflexivity.
Qed.
End ListSortFacts.

(* ================================================================= *)
(** ** [list_complaints] *)

Lemma Status_str_truthy (s : Status) : Py.str_truthy (Status_str s) = true.
Proof. now destruct s. Qed.

Lemma Status_str_eqb (a b : Status) :
  (Status_str a =? Status_str b) = true <-> a = b.
Proof. destruct a, b; simpl; split; congruence. Qed.

Lemma has_status_iff (s : Status) (c : Complaint.t) :
  has_status s c = true <-> Complaint.status c = s.
Proof.
  unfold has_status. destruct (Complaint.status c), s; split; congruence.
Qed.

Lemma status_filter_ext (s : Status) (l : list Complaint.t) :
  filter (fun c => Status_str (Complaint.status c) =? Status_str s) l
  = filter (has_status s) l.
Proof.
  apply filter_ext. intros c. unfold has_status.
  now destruct (Complaint.status c), s.
Qed.

(** C4: without a filter, [list_complaints] returns the stored complaints,
    each as often as it is stored, with timestamps in descending order; a
    store holding complaints with timestamps [t1 < t2 < t3], in the order
    of their creation, is listed as [t3, t2, t1]. *)
Theorem list_complaints_all_newest_first (db : DB) :
  Permutation (list_complaints None db) (dict_values db)
  /\ newest_first (list_complaints None db)
  /\ (forall c1 c2 c3,
        dict_values db = [c1; c2; c3] ->
        datetime.ltb (Complaint.timestamp c1) (Complaint.timestamp c2) = true ->
        datetime.ltb (Complaint.timestamp c2) (Complaint.timestamp c3) = true ->
        list_complaints None db = [c3; c2; c1]).
Proof.
  unfold list_complaints, newest_first. split; [|split].
  - apply list_sort_Permutation.
  - apply list_sort_reverse_sorted.
  - intros c1 c2 c3 -> H12 H23. now apply list_sort_reverse_three.
Qed.

Lemma list_complaints_all_newest_first_witness :
  exists c1 c2 c3,
    dict_values sample_db = [c1; c2; c3]
    /\ datetime.ltb (Complaint.timestamp c1) (Complaint.timestamp c2) = true
    /\ datetime.ltb (Complaint.timestamp c2) (Complaint.timestamp c3) = true
    /\ list_complaints None sample_db = [c3; c2; c1].
Proof.
  destruct (dict_values sample_db) as [|c1 [|c2 [|c3 [|c4 rest]]]] eqn:E;
    try discriminate E.
  exists c1, c2, c3.
  assert (H12 : datetime.ltb (Complaint.timestamp c1) (Complaint.timestamp c2)
                = true) by (injection E as <- <- <-; reflexivity).
  assert (H23 : datetime.ltb (Complaint.timestamp c2) (Complaint.timestamp c3)
                = true) by (injection E as <- <- <-; reflexivity).
  repeat split; auto.
  destruct (list_complaints_all_newest_first sample_db) as (_ & _ & H).
  exact (H c1 c2 c3 E H12 H23).
Defined.

(** C5: with a status filter, [list_complaints] returns the stored
    complaints whose status is the one asked for, each as often as it is
    stored and no other, with timestamps in descending order. *)
Theorem list_complaints_by_status (db : DB) (s : Status) :
  Permutation (list_complaints (Some s) db)
              (filter (has_status s) (dict_values db))
  /\ newest_first (list_complaints (Some s) db)
  /\ (forall c, In c (list_complaints (Some s) db)
                <-> In c (dict_values db) /\ Complaint.status c = s).
Proof.
  unfold list_complaints, newest_first.
  rewrite Status_str_truthy, status_filter_ext.
  split; [|split].
  - apply list_sort_Permutation.
  - apply list_sort_reverse_sorted.
  - intros c. rewrite <- has_status_iff, <- filter_In.
    split; apply Permutation_in;
      [|symmetry]; apply list_sort_Permutation.
Qed.

(* ================================================================= *)
(** ** [stats] *)

Lemma Category_str_eqb (a b : Category) :
  (Category_str a =? Category_str b) = Category_eqb a b.
Proof. destruct a, b; reflexivity. Qed.

Lemma Category_eqb_eq (a b : Category) : Category_eqb a b = true <-> a = b.
Proof. destruct a, b; simpl; split; congruence. Qed.

Lemma dict_get_count_category (acc : dict nat) (c : Complaint.t) (k : string) :
  dict_get k (count_category acc c)
  = if Category_str (Complaint.category c) =? k
    then Some (dict_get_default k 0 acc + 1)
    else dict_get k acc.
Proof.
  unfold count_category.
  destruct (String.eqb_spec (Category_str (Complaint.category c)) k)
    as [<-|Hne].
  - apply dict_get_set_same.
  - apply dict_get_set_other. congruence.
Qed.

(** What the loop of [stats] leaves under a key: the count it found there
    plus the number of complaints filed under that key. *)
Lemma dict_get_fold_count_category
    (vals : list Complaint.t) (acc : dict nat) (k : string) :
  dict_get k (fold_left count_category vals acc)
  = match List.length
            (filter (fun c => Category_str (Complaint.category c) =? k) vals)
    with
    | O => dict_get k acc
    | S n => Some (dict_get_default k 0 acc + S n)
    end.
Proof.
  revert acc. induction vals as [|c vals IH]; intros acc; simpl.
  - reflexivity.
  - rewrite IH. unfold dict_get_default at 1.
    rewrite dict_get_count_category.
    destruct (Category_str (Complaint.category c) =? k); simpl.
    + destruct (List.length _); f_equal; lia.
    + reflexivity.
Qed.

Lemma dict_wf_fold_count_category (vals : list Complaint.t) (acc : dict nat) :
  dict_wf acc -> dict_wf (fold_left count_category vals acc).
Proof.
  revert acc. induction vals as [|c vals IH]; intros acc Hwf; simpl.
  - assumption.
  - apply IH. unfold count_category. now apply dict_wf_set.
Qed.

Lemma sum_values_count_category (acc : dict nat) (c : Complaint.t) :
  sum_values (count_category acc c) = sum_values acc + 1.
Proof.
  unfold count_category, sum_values, dict_get_default.
  generalize (Category_str (Complaint.category c)) as k. intros k.
  induction acc as [|[k' v'] acc IH]; simpl.
  - reflexivity.
  - destruct (k' =? k); simpl.
    + lia.
    + rewrite IH. lia.
Qed.

Lemma sum_values_fold_count_category
    (vals : list Complaint.t) (acc : dict nat) :
  sum_values (fold_left count_category vals acc)
  = sum_values acc + List.length vals.
Proof.
  revert acc. induction vals as [|c vals IH]; intros acc; simpl.
  - lia.
  - rewrite IH, sum_values_count_category. lia.
Qed.

Lemma by_category_get (db : DB) (cat : Category) :
  dict_get (Category_str cat) (by_category (stats db))
  = match count_in_category cat db with
    | O => None
    | S n => Some (S n)
    end.
Proof.
  unfold stats, count_in_category. simpl.
  rewrite dict_get_fold_count_category.
  rewrite (filter_ext _ (fun c => Category_eqb (Complaint.category c) cat)).
  - reflexivity.
  - intros c. apply Category_str_eqb.
Qed.

Lemma by_category_keys (db : DB) (k : string) :
  In k (dict_keys (by_category (stats db)))
  <-> exists cat, k = Category_str cat /\ 0 < count_in_category cat db.
Proof.
  split.
  - intros Hin.
    assert (Hget : dict_get k (by_category (stats db)) <> None).
    { rewrite dict_get_None_iff. tauto. }
    unfold stats in Hget. simpl in Hget.
    rewrite dict_get_fold_count_category in Hget.
    destruct (filter _ _) as [|c rest] eqn:E; [now simpl in Hget|].
    assert (Hc : In c (c :: rest)) by now left.
    rewrite <- E in Hc. apply filter_In in Hc. destruct Hc as [Hc Hk].
    apply String.eqb_eq in Hk. exists (Complaint.category c).
    split; [congruence|].
    unfold count_in_category.
    assert (Hc' : In c (filter (fun c0 => Category_eqb (Complaint.category c0)
                                            (Complaint.category c))
                               (dict_values db))).
    { apply filter_In. split; [assumption|]. now apply Category_eqb_eq. }
    revert Hc'.
  generalize (filter (fun c0 => Category_eqb (Complaint.category c0)
                                  (Complaint.category c)) (dict_values db)).
  intros [|c' l]; simpl; [tauto | lia].
  - intros (cat & -> & Hpos).
    destruct (in_dec string_dec (Category_str cat)
                (dict_keys (by_category (stats db)))) as [H|H]; [exact H|].
    apply dict_get_None_iff in H. rewrite by_category_get in H.
    destruct (count_in_category cat db); [lia | discriminate].
Qed.


Lemma by_category_of_values (db : DB) :
  by_category (stats db) = fold_left count_category (dict_values db) [].
Proof. reflexivity. Qed.

Lemma by_category_roads_roads_water (vals : list Complaint.t) :
  map Complaint.category vals = [Roads; Roads; Water] ->
  fold_left count_category vals [] = [("Roads", 2); ("Water", 1)].
Proof.
  destruct vals as [|c1 [|c2 [|c3 [|c4 rest]]]]; try discriminate.
  simpl. intros [= H1 H2 H3]. unfold count_category.
  rewrite H1. simpl. rewrite H2. simpl. rewrite H3. reflexivity.
Qed.

Lemma dict_set_three {V : Type} (k1 k2 k3 : string) (v1 v2 v3 : V) :
  k1 <> k2 -> k1 <> k3 -> k2 <> k3 ->
  dict_set k3 v3 (dict_set k2 v2 (dict_set k1 v1 []))
  = [(k1, v1); (k2, v2); (k3, v3)].
Proof.
  intros H12 H13 H23. simpl.
  destruct (String.eqb_spec k1 k2); [contradiction|]. simpl.
  destruct (String.eqb_spec k1 k3); [contradiction|].
  destruct (String.eqb_spec k2 k3); [contradiction|].
  reflexivity.
Qed.

(** Three complaints created in an empty store under three different ids
    are stored one after the other. *)
Lemma create_three_values (env1 env2 env3 : CreateEnv)
    (p1 p2 p3 : ComplaintIn.t) :
  make_cid env1 <> make_cid env2 ->
  make_cid env1 <> make_cid env3 ->
  make_cid env2 <> make_cid env3 ->
  dict_values
    (snd (create_complaint env3 p3
       (snd (create_complaint env2 p2
          (snd (create_complaint env1 p1 DB_empty))))))
  = [fst (create_complaint env1 p1 DB_empty);
     fst (create_complaint env2 p2 DB_empty);
     fst (create_complaint env3 p3 DB_empty)].
Proof.
  intros H12 H13 H23. unfold create_complaint, DB_empty. cbn [fst snd].
  now rewrite dict_set_three.
Qed.

(** C6, as the code has it: [by_category] of [stats] maps the name of every
    category that has stored complaints to their number, has no entry for
    a category without complaints and no other key.  For every store that
    holds three complaints of categories Roads, Roads and Water it is
    [{"Roads": 2, "Water": 1}]; three creations in the empty store leave
    such a store when the three generated ids are pairwise different,
    which [create_complaint] does not check. *)
Theorem stats_by_category_counts :
  (forall (db : DB) (cat : Category),
      dict_get (Category_str cat) (by_category (stats db))
      = match count_in_category cat db with
        | O => None
        | S n => Some (S n)
        end)
  /\ (forall (db : DB) (k : string),
        In k (dict_keys (by_category (stats db)))
        <-> exists cat, k = Category_str cat /\ 0 < count_in_category cat db)
  /\ (forall db : DB, dict_wf (by_category (stats db)))
  /\ (forall db : DB,
        map Complaint.category (dict_values db) = [Roads; Roads; Water] ->
        by_category (stats db) = [("Roads", 2); ("Water", 1)])
  /\ (forall (env1 env2 env3 : CreateEnv) (p1 p2 p3 : ComplaintIn.t),
        ComplaintIn.category p1 = Roads ->
        ComplaintIn.category p2 = Roads ->
        ComplaintIn.category p3 = Water ->
        make_cid env1 <> make_cid env2 ->
        make_cid env1 <> make_cid env3 ->
        make_cid env2 <> make_cid env3 ->
        by_category
          (stats
             (snd (create_complaint env3 p3
                (snd (create_complaint env2 p2
                   (snd (create_complaint env1 p1 DB_empty)))))))
        = [("Roads", 2); ("Water", 1)]).
Proof.
  split; [exact by_category_get|].
  split; [exact by_category_keys|].
  split.
  { intros db. rewrite by_category_of_values.
    apply dict_wf_fold_count_category. constructor. }
  split.
  { intros db H. rewrite by_category_of_values.
    now apply by_category_roads_roads_water. }
  intros env1 env2 env3 p1 p2 p3 Hc1 Hc2 Hc3 H12 H13 H23.
  rewrite by_category_of_values, create_three_values by assumption.
  apply by_category_roads_roads_water. simpl. congruence.
Qed.

Lemma sample_db_requests : sample_db = sample_requests.
Proof. vm_compute. reflexivity. Qed.

Lemma stats_by_category_counts_witness :
  make_cid (sample_env 0xA1B2C3 1) <> make_cid (sample_env 0x00FF10 2)
  /\ make_cid (sample_env 0xA1B2C3 1) <> make_cid (sample_env 0x5E5E5E 3)
  /\ make_cid (sample_env 0x00FF10 2) <> make_cid (sample_env 0x5E5E5E 3)
  /\ by_category (stats sample_db) = [("Roads", 2); ("Water", 1)].
Proof.
  assert (H12 : make_cid (sample_env 0xA1B2C3 1)
                <> make_cid (sample_env 0x00FF10 2))
    by (vm_compute; discriminate).
  assert (H13 : make_cid (sample_env 0xA1B2C3 1)
                <> make_cid (sample_env 0x5E5E5E 3))
    by (vm_compute; discriminate).
  assert (H23 : make_cid (sample_env 0x00FF10 2)
                <> make_cid (sample_env 0x5E5E5E 3))
    by (vm_compute; discriminate).
  split; [exact H12|]. split; [exact H13|]. split; [exact H23|].
  destruct stats_by_category_counts as (_ & _ & _ & _ & H).
  rewrite sample_db_requests.
  exact (H (sample_env 0xA1B2C3 1) (sample_env 0x00FF10 2)
           (sample_env 0x5E5E5E 3)
           (sample_payload Roads) (sample_payload Roads) (sample_payload Water)
           eq_refl eq_refl eq_refl H12 H13 H23).
Defined.

(** The claim fails when two of the three creations draw the same id: the
    second Roads complaint takes the place of the first, and [by_category]
    counts the two records that are left. *)
Lemma stats_by_category_id_collision :
  let db1 := snd (create_complaint colliding_env1 (sample_payload Roads)
                    DB_empty) in
  let db2 := snd (create_complaint colliding_env2 (sample_payload Roads)
                    db1) in
  let db3 := snd (create_complaint (sample_env 0x5E5E5E 3)
                    (sample_payload Water) db2) in
  uuid4_int colliding_env1 <> uuid4_int colliding_env2
  /\ map Complaint.category (dict_values db3) = [Roads; Water]
  /\ by_category (stats db3) = [("Roads", 1); ("Water", 1)]
  /\ by_category (stats db3) <> [("Roads", 2); ("Water", 1)]
  /\ dict_get "Roads" (by_category (stats db3)) <> Some 2.
Proof.
  cbv zeta.
  split; [vm_compute; discriminate|].
  split; [vm_compute; reflexivity|].
  split; [vm_compute; reflexivity|].
  split; vm_compute; discriminate.
Qed.

Lemma with_status_count (s : Status) (db : DB) :
  List.length (with_status (Status_str s) db) = count_with_status s db.
Proof.
  unfold with_status, count_with_status. now rewrite status_filter_ext.
Qed.

Lemma stats_fields (db : DB) :
  total (stats db) = List.length (dict_values db)
  /\ pending (stats db) = count_with_status Pending db
  /\ in_progress (stats db) = count_with_status InProgress db
  /\ resolved (stats db) = count_with_status Resolved db.
Proof.
  unfold stats. simpl.
  split; [unfold dict_len, dict_values; now rewrite length_map|].
  split; [exact (with_status_count Pending db)|].
  split; [exact (with_status_count InProgress db)|].
  exact (with_status_count Resolved db).
Qed.

(** C7: [stats] reports as [total] the number of stored complaints and as
    [pending], [in_progress] and [resolved] the numbers of stored
    complaints whose status is Pending, In Progress and Resolved; on the
    empty store the four counts are 0 and [by_category] is empty, and
    [list_complaints] returns the empty list. *)
Theorem stats_counts :
  (forall db : DB,
      total (stats db) = List.length (dict_values db)
      /\ pending (stats db) = count_with_status Pending db
      /\ in_progress (stats db) = count_with_status InProgress db
      /\ resolved (stats db) = count_with_status Resolved db)
  /\ stats DB_empty = mkStats 0 0 0 0 []
  /\ (forall status, list_complaints status DB_empty = []).
Proof.
  split; [exact stats_fields|split].
  - reflexivity.
  - intros [[]|]; reflexivity.
Qed.

Lemma status_partition (l : list Complaint.t) :
  List.length l
  = List.length (filter (has_status Pending) l)
    + List.length (filter (has_status InProgress) l)
    + List.length (filter (has_status Resolved) l).
Proof.
  induction l as [|c l IH]; simpl; [reflexivity|].
  unfold has_status in *.
  destruct (Complaint.status c); simpl; lia.
Qed.

(** C10: the numbers of [stats] add up: [total] is the sum of [pending],
    [in_progress] and [resolved], and it is the sum of the values of
    [by_category]. *)
Theorem stats_consistent (db : DB) :
  total (stats db)
  = pending (stats db) + in_progress (stats db) + resolved (stats db)
  /\ total (stats db) = sum_values (by_category (stats db)).
Proof.
  destruct (stats_fields db) as (Ht & Hp & Hi & Hr).
  split.
  - rewrite Ht, Hp, Hi, Hr. apply status_partition.
  - rewrite Ht, by_category_of_values, sum_values_fold_count_category.
    reflexivity.
Qed.

(* ================================================================= *)
(** ** [create_complaint]: what it stores *)

(** C3, as the code has it: [create_complaint] stores the new record under
    the id it generates and leaves the record under every other id as it
    was.  When the generated id is not yet a key of the store, the store
    afterwards is the old store followed by the one new entry: every stored
    complaint is still there and there is one more.  When the id is already
    a key, the keys stay as they are (the record under the id is
    replaced). *)
Theorem create_complaint_stores
    (env : CreateEnv) (payload : ComplaintIn.t) (db db' : DB)
    (comp : Complaint.t) :
  create_complaint env payload db = (comp, db') ->
  Complaint.complaint_id comp = make_cid env
  /\ dict_get (make_cid env) db' = Some comp
  /\ (forall other, other <> make_cid env ->
        dict_get other db' = dict_get other db)
  /\ (dict_wf db -> dict_wf db')
  /\ (~ In (make_cid env) (dict_keys db) ->
        db' = db ++ [(make_cid env, comp)]
        /\ dict_values db' = dict_values db ++ [comp]
        /\ dict_len db' = S (dict_len db)
        /\ (forall k c, dict_get k db = Some c -> dict_get k db' = Some c))
  /\ (In (make_cid env) (dict_keys db) -> dict_keys db' = dict_keys db).
Proof.
  unfold create_complaint. intros [= <- <-].
  split; [reflexivity|].
  split; [apply dict_get_set_same|].
  split; [intros other Hne; now apply dict_get_set_other|].
  split; [apply dict_wf_set|].
  split.
  - intros Hfresh. apply dict_get_None_iff in Hfresh.
    rewrite (dict_set_absent _ _ _ Hfresh).
    split; [reflexivity|].
    split; [unfold dict_values; now rewrite map_app|].
    split; [unfold dict_len; rewrite length_app; simpl; lia|].
    intros k c Hk. rewrite <- (dict_set_absent _ _ _ Hfresh).
    rewrite dict_get_set_other; [assumption|]. congruence.
  - intros Hin. apply dict_keys_set_present.
    rewrite dict_get_None_iff. tauto.
Qed.

Lemma create_complaint_stores_witness :
  let env := sample_env 0xC0FFEE 4 in
  let r := create_complaint env (sample_payload Health) sample_db in
  ~ In (make_cid env) (dict_keys sample_db)
  /\ dict_values (snd r) = dict_values sample_db ++ [fst r]
  /\ dict_len (snd r) = 4.
Proof.
  intros env r.
  assert (Hfresh : ~ In (make_cid env) (dict_keys sample_db)).
  { vm_compute. intros [H|[H|[H|[]]]]; discriminate H. }
  split; [exact Hfresh|].
  destruct (create_complaint_stores env (sample_payload Health) sample_db
              (snd r) (fst r) eq_refl) as (_ & _ & _ & _ & H & _).
  destruct (H Hfresh) as (_ & Hvals & Hlen & _).
  split; [exact Hvals | exact Hlen].
Defined.

(** The claim fails when the six hex digits repeat within a year: the
    second record takes the place of the first.  The two UUIDs differ; the
    ids made from them are the same. *)
Lemma create_complaint_id_collision :
  let r1 := create_complaint colliding_env1 (sample_payload Roads) DB_empty in
  let r2 := create_complaint colliding_env2 (sample_payload Water) (snd r1) in
  uuid4_int colliding_env1 <> uuid4_int colliding_env2
  /\ In (Complaint.complaint_id (fst r2)) (dict_keys (snd r1))
  /\ In (fst r1) (dict_values (snd r1))
  /\ ~ In (fst r1) (dict_values (snd r2))
  /\ dict_len (snd r2) = dict_len (snd r1).
Proof.
  cbv zeta.
  split; [vm_compute; discriminate|].
  split; [vm_compute; now left|].
  split; [vm_compute; now left|].
  split; [|reflexivity].
  vm_compute. intros [H|[]]. discriminate H.
Qed.

(* ================================================================= *)
(** ** Stores the handlers can produce *)

Lemma dict_set_In {V : Type} (d : dict V) (k k0 : string) (v v0 : V) :
  In (k, v) (dict_set k0 v0 d) -> (k = k0 /\ v = v0) \/ In (k, v) d.
Proof.
  induction d as [|[k' v'] d IH]; simpl.
  - intros [[= <- <-]|[]]. now left.
  - destruct (String.eqb_spec k' k0) as [->|Hne]; simpl.
    + intros [[= <- <-]|H]; [now left | right; now right].
    + intros [H|H]; [right; now left|].
      destruct (IH H) as [?|?]; [now left | right; now right].
Qed.

Lemma keyed_by_id_set (db : DB) (c : Complaint.t) :
  keyed_by_id db -> keyed_by_id (dict_set (Complaint.complaint_id c) c db).
Proof.
  intros Hdb k c' Hin. apply dict_set_In in Hin.
  destruct Hin as [[-> ->]|Hin]; [reflexivity | now apply Hdb].
Qed.

(** In a store the handlers can produce no key occurs twice and every
    record sits under its own id, so the stored ids are pairwise
    different. *)
Lemma reachable_invariant (db : DB) :
  reachable db ->
  dict_wf db
  /\ keyed_by_id db
  /\ NoDup (map Complaint.complaint_id (dict_values db)).
Proof.
  intros Hr.
  assert (H : dict_wf db /\ keyed_by_id db).
  { induction Hr as [|env payload db Hr [Hwf Hkey]
                      |complaint_id payload db Hr [Hwf Hkey]].
    - split; [constructor | intros k c []].
    - unfold create_complaint. cbn [snd].
      split; [now apply dict_wf_set|].
      exact (keyed_by_id_set db
               (Complaint.construct (make_cid env) payload
                  (utcnow_for_timestamp env)) Hkey).
    - unfold update_status.
      destruct (dict_get complaint_id db) as [comp|] eqn:E; cbn [snd];
        [|now split].
      split; [now apply dict_wf_set|].
      apply dict_get_Some_In, Hkey in E. rewrite <- E at 1.
      exact (keyed_by_id_set db
               (Complaint.set_status comp (new_status payload)) Hkey). }
  destruct H as [Hwf Hkey]. split; [exact Hwf|]. split; [exact Hkey|].
  replace (map Complaint.complaint_id (dict_values db)) with (dict_keys db);
    [exact Hwf|].
  unfold dict_keys, dict_values. rewrite map_map.
  apply map_ext_in. intros [k c] Hin. symmetry. now apply Hkey.
Qed.

(* ================================================================= *)
(** ** The shape of a generated id *)

Lemma string_forall_app (P : ascii -> bool) (s t : string) :
  string_forall P (s ++ t)%string = string_forall P s && string_forall P t.
Proof.
  induction s as [|c s IH]; simpl; [reflexivity|].
  now rewrite IH, andb_assoc.
Qed.

Lemma string_length_app (s t : string) :
  String.length (s ++ t)%string = String.length s + String.length t.
Proof. induction s as [|c s IH]; simpl; congruence. Qed.

Lemma string_forall_prefix (P : ascii -> bool) (n : nat) (s : string) :
  string_forall P s = true -> string_forall P (Py.prefix n s) = true.
Proof.
  unfold Py.prefix. revert s.
  induction n as [|n IH]; intros [|c s]; simpl; auto.
  intros H. apply andb_true_iff in H. destruct H as [Hc Hs].
  rewrite Hc. simpl. auto.
Qed.

Lemma string_length_prefix (n : nat) (s : string) :
  n <= String.length s -> String.length (Py.prefix n s) = n.
Proof.
  unfold Py.prefix. revert s.
  induction n as [|n IH]; intros [|c s]; simpl; intros H;
    try reflexivity; try lia.
  rewrite IH; [reflexivity | lia].
Qed.

Lemma string_length_upper (s : string) :
  String.length (Py.upper s) = String.length s.
Proof. induction s as [|c s IH]; simpl; congruence. Qed.

Lemma upper_ascii_hex (c : ascii) :
  is_lower_hex c = true -> is_upper_hex (Py.upper_ascii c) = true.
Proof.
  destruct c as [[] [] [] [] [] [] [] []]; vm_compute; auto.
Qed.

Lemma string_forall_upper_hex (s : string) :
  string_forall is_lower_hex s = true ->
  string_forall is_upper_hex (Py.upper s) = true.
Proof.
  induction s as [|c s IH]; simpl; [reflexivity|].
  intros H. apply andb_true_iff in H. destruct H as [Hc Hs].
  now rewrite (upper_ascii_hex c Hc), IH.
Qed.

Lemma hex_digit_lower_hex (n : N) :
  is_lower_hex (Py.hex_digit (n mod 16)) = true.
Proof.
  assert (H : (n mod 16 < 16)%N) by (apply N.mod_lt; discriminate).
  unfold Py.hex_digit.
  assert (Hd : N.to_nat (n mod 16) < 16) by lia.
  revert Hd. generalize (N.to_nat (n mod 16)). intros d Hd.
  do 16 (destruct d as [|d]; [reflexivity|]).
  lia.
Qed.

Lemma hex_of_lower_hex (width : nat) (n : N) :
  string_forall is_lower_hex (Py.hex_of width n) = true.
Proof.
  revert n. induction width as [|w IH]; intros n; simpl; [reflexivity|].
  rewrite string_forall_app, IH. simpl.
  now rewrite hex_digit_lower_hex.
Qed.

Lemma hex_of_length (width : nat) (n : N) :
  String.length (Py.hex_of width n) = width.
Proof.
  revert n. induction width as [|w IH]; intros n; simpl; [reflexivity|].
  rewrite string_length_app, IH. simpl. lia.
Qed.

Lemma year_four_digits_In (y : Z) :
  (1000 <= y <= 9999)%Z -> In y four_digit_years.
Proof.
  intros H. unfold four_digit_years. apply in_map_iff.
  exists (Z.to_nat (y - 1000)). split; [lia|].
  apply in_seq. lia.
Qed.

Lemma four_digit_years_checked :
  forallb (fun y => is_four_digits (Py.str_of_int y)) four_digit_years = true.
Proof. vm_compute. reflexivity. Qed.

Lemma str_of_int_four_digits (y : Z) :
  (1000 <= y <= 9999)%Z -> is_four_digits (Py.str_of_int y) = true.
Proof.
  intros H. apply year_four_digits_In in H.
  exact (proj1 (forallb_forall _ _) four_digit_years_checked y H).
Qed.

Lemma cid_format_intro (Y H : string) :
  is_four_digits Y = true ->
  String.length H = 6 ->
  string_forall is_upper_hex H = true ->
  cid_format ("CC" ++ Y ++ "-" ++ H)%string = true
  /\ substring 2 4 ("CC" ++ Y ++ "-" ++ H)%string = Y
  /\ substring 7 6 ("CC" ++ Y ++ "-" ++ H)%string = H.
Proof.
  unfold is_four_digits. intros HY HH6 HH.
  apply andb_true_iff in HY. destruct HY as [HY4 HY].
  apply Nat.eqb_eq in HY4.
  destruct Y as [|y1 [|y2 [|y3 [|y4 [|y5 Y]]]]]; try discriminate HY4.
  destruct H as [|h1 [|h2 [|h3 [|h4 [|h5 [|h6 [|h7 H]]]]]]];
    try discriminate HH6.
  split; [|split; reflexivity].
  unfold cid_format. simpl in *.
  rewrite HY, HH. reflexivity.
Qed.

Lemma make_cid_format (env : CreateEnv) :
  (1000 <= datetime.year (utcnow_for_id env) <= 9999)%Z ->
  cid_format (make_cid env) = true
  /\ substring 2 4 (make_cid env)
     = Py.str_of_int (datetime.year (utcnow_for_id env))
  /\ substring 7 6 (make_cid env)
     = Py.upper (Py.prefix 6 (uuid_hex (uuid4_int env))).
Proof.
  intros Hy. unfold make_cid. apply cid_format_intro.
  - now apply str_of_int_four_digits.
  - rewrite string_length_upper, string_length_prefix; [reflexivity|].
    unfold uuid_hex. rewrite hex_of_length. lia.
  - apply string_forall_upper_hex, string_forall_prefix.
    apply hex_of_lower_hex.
Qed.

Lemma fields_construct (cid : string) (payload : ComplaintIn.t)
    (utcnow : datetime.t) :
  Complaint.fields (Complaint.construct cid payload utcnow) = payload.
Proof. now destruct payload. Qed.

(** C8: for a validated payload, with the clock in a year of four digits,
    [create_complaint] returns a record whose id has the shape
    [CC<4 digits>-<6 uppercase hex digits>] (the digits are the year read
    from the clock, the hex digits the first six of the UUID in upper
    case), whose status is Pending, whose timestamp is the reading of the
    clock taken for it (so not before any earlier instant of the request),
    and whose other fields are those of the payload; the store holds that
    same record under its id. *)
Theorem create_complaint_returns
    (env : CreateEnv) (payload : ComplaintIn.t) (db db' : DB)
    (comp : Complaint.t) (request_time : datetime.t) :
  (1000 <= datetime.year (utcnow_for_id env) <= 9999)%Z ->
  datetime.leb request_time (utcnow_for_timestamp env) = true ->
  create_complaint env payload db = (comp, db') ->
  cid_format (Complaint.complaint_id comp) = true
  /\ substring 2 4 (Complaint.complaint_id comp)
     = Py.str_of_int (datetime.year (utcnow_for_id env))
  /\ substring 7 6 (Complaint.complaint_id comp)
     = Py.upper (Py.prefix 6 (uuid_hex (uuid4_int env)))
  /\ Complaint.status comp = Pending
  /\ Complaint.timestamp comp = utcnow_for_timestamp env
  /\ datetime.leb request_time (Complaint.timestamp comp) = true
  /\ Complaint.fields comp = payload
  /\ dict_get (Complaint.complaint_id comp) db' = Some comp.
Proof.
  intros Hyear Hclock. unfold create_complaint. intros [= <- <-].
  destruct (make_cid_format env Hyear) as (Hfmt & Hy & Hx).
  cbn [Complaint.complaint_id Complaint.status Complaint.timestamp
       Complaint.construct].
  split; [exact Hfmt|].
  split; [exact Hy|].
  split; [exact Hx|].
  split; [reflexivity|].
  split; [reflexivity|].
  split; [exact Hclock|].
  split; [apply fields_construct|].
  apply dict_get_set_same.
Qed.

Lemma create_complaint_returns_witness :
  let env := sample_env 0xC0FFEE 4 in
  let r := create_complaint env (sample_payload Health) sample_db in
  (1000 <= datetime.year (utcnow_for_id env) <= 9999)%Z
  /\ datetime.leb (sample_clock 3) (utcnow_for_timestamp env) = true
  /\ cid_format (Complaint.complaint_id (fst r)) = true
  /\ Complaint.status (fst r) = Pending
  /\ Complaint.fields (fst r) = sample_payload Health
  /\ dict_get (Complaint.complaint_id (fst r)) (snd r) = Some (fst r).
Proof.
  intros env r.
  assert (Hyear : (1000 <= datetime.year (utcnow_for_id env) <= 9999)%Z)
    by (simpl; lia).
  assert (Hclock : datetime.leb (sample_clock 3) (utcnow_for_timestamp env)
                   = true) by reflexivity.
  split; [exact Hyear|]. split; [exact Hclock|].
  destruct (create_complaint_returns env (sample_payload Health) sample_db
              (snd r) (fst r) (sample_clock 3) Hyear Hclock eq_refl)
    as (Hfmt & _ & _ & Hst & _ & _ & Hfields & Hstored).
  split; [exact Hfmt|]. split; [exact Hst|].
  split; [exact Hfields | exact Hstored].
Defined.

(* ================================================================= *)
(** ** Validation of the request body *)

Lemma literal_in (E : Type) (of_str : string -> option E) (loc : string)
    (f : Field string) :
  in_literal of_str f = true -> exists e, literal of_str loc f = inr e.
Proof.
  destruct f as [| |s]; simpl; try discriminate.
  destruct (of_str s) as [e|]; [eauto | discriminate].
Qed.

Lemma literal_out (E : Type) (of_str : string -> option E) (loc : string)
    (f : Field string) :
  in_literal of_str f = false -> literal of_str loc f = inl [loc].
Proof.
  destruct f as [| |s]; simpl; try reflexivity.
  destruct (of_str s); [discriminate | reflexivity].
Qed.

Lemma required_given (A : Type) (loc : string) (f : Field A) :
  is_given f = true -> exists a, required loc f = inr a.
Proof. destruct f; simpl; try discriminate; eauto. Qed.

Lemma required_not_given (A : Type) (loc : string) (f : Field A) :
  is_given f = false -> required loc f = inl [loc].
Proof. destruct f; simpl; try discriminate; reflexivity. Qed.

Lemma optional_well_typed (A : Type) (loc : string) (f : Field A) :
  not_rejected f = true -> exists a, optional loc f = inr a.
Proof. destruct f; simpl; try discriminate; eauto. Qed.

Lemma optional_rejected (A : Type) (loc : string) (f : Field A) :
  not_rejected f = false -> optional loc f = inl [loc].
Proof. destruct f; simpl; try discriminate; reflexivity. Qed.

Lemma faults_vapply (A B : Type) (f : Validated (A -> B)) (x : Validated A) :
  faults (vapply f x) = faults f ++ faults x.
Proof.
  destruct f, x; simpl; try reflexivity. now rewrite app_nil_r.
Qed.

Lemma is_valid_vapply (A B : Type) (f : Validated (A -> B)) (x : Validated A) :
  is_valid (vapply f x) = is_valid f && is_valid x.
Proof. now destruct f, x. Qed.

Lemma is_valid_literal (E : Type) (of_str : string -> option E)
    (loc : string) (f : Field string) :
  is_valid (literal of_str loc f) = in_literal of_str f.
Proof.
  destruct f as [| |s]; simpl; try reflexivity. now destruct (of_str s).
Qed.

Lemma is_valid_required (A : Type) (loc : string) (f : Field A) :
  is_valid (required loc f) = is_given f.
Proof. now destruct f. Qed.

Lemma is_valid_optional (A : Type) (loc : string) (f : Field A) :
  is_valid (optional loc f) = not_rejected f.
Proof. now destruct f. Qed.

Lemma is_valid_inr (A : Type) (x : Validated A) :
  is_valid x = true -> exists a, x = inr a.
Proof. destruct x; simpl; [discriminate | eauto]. Qed.

Lemma not_valid_inl (A : Type) (x : Validated A) :
  is_valid x = false -> x = inl (faults x).
Proof. destruct x; simpl; [reflexivity | discriminate]. Qed.

Lemma is_valid_validate (body : ComplaintBody.t) :
  is_valid (validate_ComplaintIn body) = enums_valid body && others_valid body.
Proof.
  unfold validate_ComplaintIn, enums_valid, others_valid.
  rewrite !is_valid_vapply, !is_valid_literal, !is_valid_required,
    !is_valid_optional.
  simpl.
  destruct (is_given (ComplaintBody.user_id body)),
    (is_given (ComplaintBody.text body)),
    (not_rejected (ComplaintBody.voice_url body)),
    (in_literal Category_of (ComplaintBody.category body)),
    (in_literal Priority_of (ComplaintBody.priority body)),
    (in_literal Level_of (ComplaintBody.level body)),
    (not_rejected (ComplaintBody.district body)),
    (not_rejected (ComplaintBody.location body)),
    (not_rejected (ComplaintBody.assigned_to body)); reflexivity.
Qed.

Lemma faults_validate (body : ComplaintBody.t) :
  faults (validate_ComplaintIn body)
  = faults (required "user_id" (ComplaintBody.user_id body))
    ++ faults (required "text" (ComplaintBody.text body))
    ++ faults (optional "voice_url" (ComplaintBody.voice_url body))
    ++ faults (literal Category_of "category" (ComplaintBody.category body))
    ++ faults (literal Priority_of "priority" (ComplaintBody.priority body))
    ++ faults (literal Level_of "level" (ComplaintBody.level body))
    ++ faults (optional "district" (ComplaintBody.district body))
    ++ faults (optional "location" (ComplaintBody.location body))
    ++ faults (optional "assigned_to" (ComplaintBody.assigned_to body)).
Proof.
  unfold validate_ComplaintIn. rewrite !faults_vapply. simpl.
  now rewrite <- !app_assoc.
Qed.

(** A body that is turned down is turned down for at least one field. *)
Lemma faults_validate_nonempty (body : ComplaintBody.t) :
  is_valid (validate_ComplaintIn body) = false ->
  faults (validate_ComplaintIn body) <> [].
Proof.
  rewrite is_valid_validate, faults_validate.
  unfold enums_valid, others_valid. intros Hv Hnil.
  apply (f_equal (@List.length string)) in Hnil.
  rewrite !length_app in Hnil. simpl in Hnil.
  destruct (is_given (ComplaintBody.user_id body)) eqn:E1;
    [|rewrite (required_not_given _ _ _ E1) in Hnil; simpl in Hnil; lia].
  destruct (is_given (ComplaintBody.text body)) eqn:E2;
    [|rewrite (required_not_given _ _ _ E2) in Hnil; simpl in Hnil; lia].
  destruct (not_rejected (ComplaintBody.voice_url body)) eqn:E3;
    [|rewrite (optional_rejected _ _ _ E3) in Hnil; simpl in Hnil; lia].
  destruct (in_literal Category_of (ComplaintBody.category body)) eqn:E4;
    [|rewrite (literal_out _ _ _ _ E4) in Hnil; simpl in Hnil; lia].
  destruct (in_literal Priority_of (ComplaintBody.priority body)) eqn:E5;
    [|rewrite (literal_out _ _ _ _ E5) in Hnil; simpl in Hnil; lia].
  destruct (in_literal Level_of (ComplaintBody.level body)) eqn:E6;
    [|rewrite (literal_out _ _ _ _ E6) in Hnil; simpl in Hnil; lia].
  destruct (not_rejected (ComplaintBody.district body)) eqn:E7;
    [|rewrite (optional_rejected _ _ _ E7) in Hnil; simpl in Hnil; lia].
  destruct (not_rejected (ComplaintBody.location body)) eqn:E8;
    [|rewrite (optional_rejected _ _ _ E8) in Hnil; simpl in Hnil; lia].
  destruct (not_rejected (ComplaintBody.assigned_to body)) eqn:E9;
    [|rewrite (optional_rejected _ _ _ E9) in Hnil; simpl in Hnil; lia].
  discriminate Hv.
Qed.

Lemma faults_validate_enums (body : ComplaintBody.t) :
  (in_literal Category_of (ComplaintBody.category body) = false ->
     In "category" (faults (validate_ComplaintIn body)))
  /\ (in_literal Priority_of (ComplaintBody.priority body) = false ->
        In "priority" (faults (validate_ComplaintIn body)))
  /\ (in_literal Level_of (ComplaintBody.level body) = false ->
        In "level" (faults (validate_ComplaintIn body))).
Proof.
  rewrite faults_validate.
  repeat split; intros H; rewrite (literal_out _ _ _ _ H);
    repeat (apply in_or_app; first [left; now left | right]).
Qed.

(** C9, as the code has it: a body with [category], [priority] or [level]
    outside its closed set is answered with 422 and the names of the
    fields at fault, those fields among them, and the store stays as it
    was; a body whose three enumerations are in range and whose other
    fields pass the validation of their types ([user_id] and [text] given
    and accepted, each optional field absent or holding a value its type
    accepts, after conversion where the type converts, as for a [lat]
    sent as a numeric string) is accepted and handed to
    [create_complaint]; no other body is accepted, and every body that is
    turned down leaves the store as it was. *)
Theorem post_complaints_validation
    (env : CreateEnv) (body : ComplaintBody.t) (db : DB) :
  (enums_valid body = false ->
     exists locs,
       post_complaints env body db
       = (inl (mkRequestValidationError 422 locs), db)
       /\ locs <> []
       /\ (in_literal Category_of (ComplaintBody.category body) = false ->
             In "category" locs)
       /\ (in_literal Priority_of (ComplaintBody.priority body) = false ->
             In "priority" locs)
       /\ (in_literal Level_of (ComplaintBody.level body) = false ->
             In "level" locs))
  /\ (enums_valid body = true -> others_valid body = true ->
        exists payload,
          validate_ComplaintIn body = inr payload
          /\ post_complaints env body db
             = (inr (fst (create_complaint env payload db)),
                snd (create_complaint env payload db)))
  /\ (forall comp db',
        post_complaints env body db = (inr comp, db') ->
        enums_valid body = true /\ others_valid body = true)
  /\ (forall err db',
        post_complaints env body db = (inl err, db') ->
        db' = db
        /\ (400 <= validation_status_code err < 500)%Z
        /\ validation_detail err <> []).
Proof.
  pose proof (is_valid_validate body) as Hvalid.
  pose proof (faults_validate_nonempty body) as Hne.
  pose proof (faults_validate_enums body) as (Hcat & Hpri & Hlev).
  unfold post_complaints.
  destruct (validate_ComplaintIn body) as [locs|payload] eqn:E;
    simpl in Hvalid, Hne, Hcat, Hpri, Hlev.
  - split; [|split; [|split]].
    + intros _. exists locs. repeat split; auto.
    + intros He Ho. rewrite He, Ho in Hvalid. discriminate Hvalid.
    + intros comp db' H. discriminate H.
    + intros err db' [= <- <-]. simpl. repeat split; auto; lia.
  - symmetry in Hvalid. apply andb_true_iff in Hvalid.
    destruct Hvalid as [He Ho].
    split; [|split; [|split]].
    + intros H. rewrite H in He. discriminate He.
    + intros _ _. exists payload. split; [reflexivity|].
      now destruct (create_complaint env payload db).
    + intros comp db' _. now split.
    + intros err db' H.
      destruct (create_complaint env payload db). discriminate H.
Qed.

Lemma post_complaints_validation_witness :
  enums_valid body_with_unknown_category = false
  /\ enums_valid sample_body = true
  /\ others_valid sample_body = true
  /\ (exists locs,
        post_complaints (sample_env 0xC0FFEE 4) body_with_unknown_category
          sample_db
        = (inl (mkRequestValidationError 422 locs), sample_db)
        /\ In "category" locs)
  /\ (exists payload,
        validate_ComplaintIn sample_body = inr payload
        /\ post_complaints (sample_env 0xC0FFEE 4) sample_body sample_db
           = (inr (fst (create_complaint (sample_env 0xC0FFEE 4) payload
                          sample_db)),
              snd (create_complaint (sample_env 0xC0FFEE 4) payload
                     sample_db))).
Proof.
  split; [reflexivity|]. split; [reflexivity|]. split; [reflexivity|].
  split.
  - destruct (post_complaints_validation (sample_env 0xC0FFEE 4)
                body_with_unknown_category sample_db) as (H & _).
    destruct (H eq_refl) as (locs & Hpost & _ & Hcat & _).
    exists locs. split; [exact Hpost | exact (Hcat eq_refl)].
  - destruct (post_complaints_validation (sample_env 0xC0FFEE 4)
                sample_body sample_db) as (_ & H & _).
    exact (H eq_refl eq_refl).
Defined.

(** A body whose [lat] and [lng] came as numeric strings is accepted; the
    record holds the numbers. *)
Lemma post_complaints_accepts_numeric_strings :
  enums_valid body_with_numeric_strings = true
  /\ others_valid body_with_numeric_strings = true
  /\ exists comp db',
       post_complaints (sample_env 0xC0FFEE 4) body_with_numeric_strings
         sample_db = (inr comp, db')
       /\ Complaint.location comp = Some (mkLocation 12.5%float 77%float).
Proof.
  split; [reflexivity|]. split; [reflexivity|].
  unfold post_complaints. cbn [validate_ComplaintIn].
  destruct (validate_ComplaintIn body_with_numeric_strings)
    as [locs|payload] eqn:E; [discriminate E|].
  injection E as <-.
  eexists. eexists. split; reflexivity.
Qed.

(** The claim fails for a body whose three enumerations are in range but
    which has no [user_id]: it is turned down, for that field. *)
Lemma post_complaints_rejects_missing_user_id :
  enums_valid body_without_user_id = true
  /\ post_complaints (sample_env 0xC0FFEE 4) body_without_user_id sample_db
     = (inl (mkRequestValidationError 422 ["user_id"]), sample_db)
  /\ ~ (exists comp db',
          post_complaints (sample_env 0xC0FFEE 4) body_without_user_id
            sample_db = (inr comp, db')).
Proof.
  split; [reflexivity|]. split; [reflexivity|].
  intros (comp & db' & H). discriminate H.
Qed.

(* ================================================================= *)
(** ** More about [list.sort] and [list_complaints] *)

Lemma tuple_cmp_Eq (a b : list Z) : datetime.tuple_cmp a b = Eq -> a = b.
Proof.
  revert b. induction a as [|x a IH]; intros [|y b]; simpl;
    try reflexivity; try discriminate.
  destruct (Z.compare_spec x y) as [Hxy| |]; try discriminate.
  intros Hab. subst. f_equal. auto.
Qed.

Lemma datetime_eqb_eq (a b : datetime.t) :
  datetime_eqb a b = true <-> a = b.
Proof.
  unfold datetime_eqb, datetime.cmp. split.
  - destruct (datetime.tuple_cmp _ _) eqn:E; try discriminate. intros _.
    apply tuple_cmp_Eq in E. destruct a, b. simpl in E.
    now injection E as -> -> -> -> -> -> ->.
  - intros ->. now rewrite tuple_cmp_refl.
Qed.

Lemma datetime_ltb_irrefl (a : datetime.t) : datetime.ltb a a = false.
Proof. unfold datetime.ltb, datetime.cmp. now rewrite tuple_cmp_refl. Qed.

Lemma datetime_leb_not_ltb (a b : datetime.t) :
  datetime.leb a b = true -> datetime.ltb b a = false.
Proof.
  unfold datetime.ltb, datetime.leb, datetime.cmp.
  rewrite (tuple_cmp_antisym (datetime.astuple a) (datetime.astuple b)).
  now destruct (datetime.tuple_cmp (datetime.astuple a) (datetime.astuple b)).
Qed.

Section ListSortMore.
Context {A : Type} (key : A -> datetime.t).

(** Inserting does not move an element past one with the same key. *)
Lemma filter_insort_same_key (t : datetime.t) (x : A) (l : list A) :
  filter (fun a => datetime_eqb (key a) t) (insort key x l)
  = if datetime_eqb (key x) t
    then x :: filter (fun a => datetime_eqb (key a) t) l
    else filter (fun a => datetime_eqb (key a) t) l.
Proof.
  induction l as [|y l IH]; simpl.
  - reflexivity.
  - destruct (datetime.ltb (key y) (key x)) eqn:Hlt; simpl.
    + rewrite IH.
      destruct (datetime_eqb (key y) t) eqn:Hy;
        destruct (datetime_eqb (key x) t) eqn:Hx; try reflexivity.
      apply datetime_eqb_eq in Hx, Hy. rewrite Hx, Hy in Hlt.
      now rewrite datetime_ltb_irrefl in Hlt.
    + reflexivity.
Qed.

Lemma filter_sort_ascending_same_key (t : datetime.t) (l : list A) :
  filter (fun a => datetime_eqb (key a) t) (sort_ascending key l)
  = filter (fun a => datetime_eqb (key a) t) l.
Proof.
  induction l as [|x l IH]; simpl; [reflexivity|].
  rewrite filter_insort_same_key, IH. reflexivity.
Qed.

(** [list.sort] is stable, in both directions: the elements of one key come
    out in the order they went in. *)
Lemma list_sort_stable (reverse : bool) (t : datetime.t) (l : list A) :
  filter (fun a => datetime_eqb (key a) t) (list_sort key reverse l)
  = filter (fun a => datetime_eqb (key a) t) l.
Proof.
  unfold list_sort. destruct reverse.
  - rewrite filter_rev, filter_sort_ascending_same_key, filter_rev.
    apply rev_involutive.
  - apply filter_sort_ascending_same_key.
Qed.

Lemma insort_below_all (x : A) (l : list A) :
  Forall (fun z => datetime.leb (key x) (key z) = true) l ->
  insort key x l = x :: l.
Proof.
  destruct l as [|z l]; simpl; [reflexivity|].
  intros H. inversion H as [|? ? Hz _]; subst.
  now rewrite (datetime_leb_not_ltb _ _ Hz).
Qed.

Lemma Forall_filter (P : A -> Prop) (p : A -> bool) (l : list A) :
  Forall P l -> Forall P (filter p l).
Proof.
  intros H. apply Forall_forall. intros z Hz.
  apply filter_In in Hz. destruct Hz as [Hz _].
  revert z Hz. now apply Forall_forall.
Qed.

(** Filtering a sorted list and inserting, or inserting and filtering. *)
Lemma filter_insort (p : A -> bool) (x : A) (l : list A) :
  StronglySorted (ascending_by key) l ->
  filter p (insort key x l)
  = if p x then insort key x (filter p l) else filter p l.
Proof.
  induction 1 as [|y l Hs IH Hy]; simpl.
  - now destruct (p x).
  - destruct (datetime.ltb (key y) (key x)) eqn:Hlt; simpl.
    + rewrite IH. destruct (p y), (p x); simpl; try reflexivity.
      now rewrite Hlt.
    + destruct (p x); [|reflexivity].
      apply datetime_not_ltb_leb in Hlt.
      symmetry. apply insort_below_all.
      apply (Forall_filter _ p (y :: l)).
      constructor; [exact Hlt|].
      eapply Forall_impl; [|exact Hy].
      intros z Hz. eapply datetime_leb_trans; eassumption.
Qed.

Lemma filter_sort_ascending (p : A -> bool) (l : list A) :
  filter p (sort_ascending key l) = sort_ascending key (filter p l).
Proof.
  induction l as [|x l IH]; simpl; [reflexivity|].
  rewrite filter_insort by apply sort_ascending_sorted.
  rewrite IH. now destruct (p x).
Qed.

(** Filtering and sorting can be done in either order. *)
Lemma filter_list_sort (p : A -> bool) (reverse : bool) (l : list A) :
  filter p (list_sort key reverse l) = list_sort key reverse (filter p l).
Proof.
  unfold list_sort. destruct reverse.
  - now rewrite filter_rev, filter_sort_ascending, filter_rev.
  - apply filter_sort_ascending.
Qed.
End ListSortMore.

Lemma list_complaints_selected (status : option Status) (db : DB) :
  list_complaints status db
  = list_sort Complaint.timestamp true (selected status db).
Proof.
  unfold list_complaints, selected. destruct status as [s|]; [|reflexivity].
  now rewrite Status_str_truthy, status_filter_ext.
Qed.

(** X1: [list_complaints] keeps complaints with the same timestamp in the
    order in which the store holds them, with or without a status filter:
    among the complaints stamped with any one instant, the listing has the
    order of the store. *)
Theorem list_complaints_ties_in_store_order
    (status : option Status) (db : DB) (t : datetime.t) :
  filter (filed_at t) (list_complaints status db)
  = filter (filed_at t) (selected status db).
Proof.
  rewrite list_complaints_selected.
  exact (list_sort_stable Complaint.timestamp true t (selected status db)).
Qed.

(** X2: the listing under a status filter is the unfiltered listing with
    the other complaints struck out: filtering before the sort, as the
    handler does, gives the same list as filtering the sorted list. *)
Theorem list_complaints_filter_commutes (s : Status) (db : DB) :
  list_complaints (Some s) db
  = filter (has_status s) (list_complaints None db).
Proof.
  rewrite !list_complaints_selected. unfold selected.
  symmetry. apply filter_list_sort.
Qed.

(** X3: the listings and the counters of [stats] agree: the unfiltered
    listing has [total] entries and the listing under a status has as many
    entries as the counter of that status. *)
Theorem list_complaints_length_stats (db : DB) :
  List.length (list_complaints None db) = total (stats db)
  /\ (forall s, List.length (list_complaints (Some s) db)
                = stats_count s (stats db)).
Proof.
  destruct (stats_fields db) as (Ht & Hp & Hi & Hr).
  split.
  - rewrite Ht, list_complaints_selected.
    apply Permutation_length, list_sort_Permutation.
  - intros s. rewrite list_complaints_selected.
    rewrite (Permutation_length
               (list_sort_Permutation Complaint.timestamp true
                  (selected (Some s) db))).
    destruct s; cbn [stats_count selected];
      [rewrite Hp | rewrite Hi | rewrite Hr]; reflexivity.
Qed.

(* ================================================================= *)
(** ** More about [update_status] *)

Lemma dict_set_set_same {V : Type} (d : dict V) (k : string) (v v' : V) :
  dict_set k v (dict_set k v' d) = dict_set k v d.
Proof.
  induction d as [|[k0 v0] d IH]; simpl.
  - now rewrite String.eqb_refl.
  - destruct (k0 =? k) eqn:E; simpl; rewrite E; [reflexivity|].
    now rewrite IH.
Qed.

Lemma dict_set_comm {V : Type} (d : dict V) (k1 k2 : string) (v1 v2 : V) :
  k1 <> k2 ->
  dict_get k1 d <> None -> dict_get k2 d <> None ->
  dict_set k1 v1 (dict_set k2 v2 d) = dict_set k2 v2 (dict_set k1 v1 d).
Proof.
  intros Hne. induction d as [|[k0 v0] d IH]; simpl; [congruence|].
  destruct (k0 =? k1) eqn:E1, (k0 =? k2) eqn:E2; simpl; rewrite ?E1, ?E2.
  - apply String.eqb_eq in E1, E2. congruence.
  - reflexivity.
  - reflexivity.
  - intros G1 G2. now rewrite IH.
Qed.

Lemma update_status_store
    (complaint_id : string) (payload : StatusUpdate) (db : DB) :
  snd (update_status complaint_id payload db)
  = match dict_get complaint_id db with
    | Some comp =>
        dict_set complaint_id
          (Complaint.set_status comp (new_status payload)) db
    | None => db
    end.
Proof.
  unfold update_status. now destruct (dict_get complaint_id db).
Qed.

Lemma update_status_get_other
    (complaint_id other : string) (payload : StatusUpdate) (db : DB) :
  other <> complaint_id ->
  dict_get other (snd (update_status complaint_id payload db))
  = dict_get other db.
Proof.
  intros Hne. rewrite update_status_store.
  destruct (dict_get complaint_id db); [|reflexivity].
  now apply dict_get_set_other.
Qed.

(** X4: a later update of an id overrides an earlier one completely: the
    answer and the store after two updates of the same id are those of the
    second update alone (any status may follow any other); so repeating an
    update changes nothing. *)
Theorem update_status_last_wins
    (complaint_id : string) (first second : StatusUpdate) (db : DB) :
  update_status complaint_id second
    (snd (update_status complaint_id first db))
  = update_status complaint_id second db.
Proof.
  unfold update_status.
  destruct (dict_get complaint_id db) as [comp|] eqn:E; cbn [snd].
  - rewrite dict_get_set_same, dict_set_set_same. reflexivity.
  - now rewrite E.
Qed.

(** X5: updates of two different ids do not interfere: each gets the answer
    it would get on the store before the other, and the store afterwards
    does not depend on which came first. *)
Theorem update_status_commutes
    (id1 id2 : string) (p1 p2 : StatusUpdate) (db : DB) :
  id1 <> id2 ->
  fst (update_status id1 p1 (snd (update_status id2 p2 db)))
  = fst (update_status id1 p1 db)
  /\ snd (update_status id1 p1 (snd (update_status id2 p2 db)))
     = snd (update_status id2 p2 (snd (update_status id1 p1 db))).
Proof.
  intros Hne. split.
  - unfold update_status at 1 3.
    rewrite (update_status_get_other id2 id1 p2 db Hne).
    now destruct (dict_get id1 db).
  - rewrite (update_status_store id1 p1 (snd (update_status id2 p2 db))).
    rewrite (update_status_store id2 p2 (snd (update_status id1 p1 db))).
    rewrite (update_status_get_other id2 id1 p2 db Hne).
    rewrite (update_status_get_other id1 id2 p1 db) by congruence.
    rewrite !update_status_store.
    destruct (dict_get id1 db) as [c1|] eqn:E1;
      destruct (dict_get id2 db) as [c2|] eqn:E2; try reflexivity.
    apply dict_set_comm; congruence.
Qed.

Lemma update_status_commutes_witness :
  let p1 := mkStatusUpdate Resolved in
  let p2 := mkStatusUpdate InProgress in
  "CC2026-A1B2C3" <> "CC2026-5E5E5E"
  /\ snd (update_status "CC2026-A1B2C3" p1
            (snd (update_status "CC2026-5E5E5E" p2 sample_db)))
     = snd (update_status "CC2026-5E5E5E" p2
              (snd (update_status "CC2026-A1B2C3" p1 sample_db))).
Proof.
  intros p1 p2.
  assert (Hne : "CC2026-A1B2C3" <> "CC2026-5E5E5E") by discriminate.
  split; [exact Hne|].
  exact (proj2 (update_status_commutes "CC2026-A1B2C3" "CC2026-5E5E5E"
                  p1 p2 sample_db Hne)).
Defined.

Lemma dict_set_values_Forall2 {V : Type} (R : V -> V -> Prop)
    (d : dict V) (k : string) (v v' : V) :
  (forall x, R x x) ->
  dict_get k d = Some v -> R v v' ->
  Forall2 R (dict_values d) (dict_values (dict_set k v' d)).
Proof.
  intros Hrefl. induction d as [|[k0 v0] d IH]; simpl; [discriminate|].
  destruct (k0 =? k); simpl.
  - intros [= ->] Hv. constructor; [exact Hv|].
    clear - Hrefl.
    induction d as [|[k1 v1] d IH]; simpl; constructor; auto.
  - intros Hget Hv. constructor; auto.
Qed.

Lemma fold_count_category_ext (l l' : list Complaint.t) (acc : dict nat) :
  Forall2 (fun a b => Complaint.category a = Complaint.category b) l l' ->
  fold_left count_category l acc = fold_left count_category l' acc.
Proof.
  intros H. revert acc. induction H as [|a b l l' Hab _ IH]; intros acc.
  - reflexivity.
  - simpl. unfold count_category at 2 4. rewrite Hab. apply IH.
Qed.

Lemma has_status_Status_eqb (s : Status) (c : Complaint.t) :
  has_status s c = Status_eqb (Complaint.status c) s.
Proof. unfold has_status. now destruct (Complaint.status c), s. Qed.

Lemma count_with_status_set
    (s : Status) (db : DB) (k : string) (c c' : Complaint.t) :
  dict_get k db = Some c ->
  count_with_status s (dict_set k c' db)
    + (if has_status s c then 1 else 0)
  = count_with_status s db + (if has_status s c' then 1 else 0).
Proof.
  unfold count_with_status.
  induction db as [|[k0 c0] db IH]; simpl; [discriminate|].
  destruct (k0 =? k); simpl.
  - intros [= ->]. destruct (has_status s c), (has_status s c'); simpl; lia.
  - intros Hget. specialize (IH Hget).
    destruct (has_status s c0); simpl; lia.
Qed.

Lemma stats_count_with_status (s : Status) (db : DB) :
  stats_count s (stats db) = count_with_status s db.
Proof.
  destruct (stats_fields db) as (_ & Hp & Hi & Hr). now destruct s.
Qed.

(** X6: an update of a stored id moves one complaint from the counter of
    its old status to the counter of the new one and changes nothing else
    in [stats]: [total] and [by_category] are the same, and each status
    counter, corrected by one for the old status, equals the old counter,
    corrected by one for the new status. *)
Theorem update_status_stats
    (db db' : DB) (complaint_id : string) (payload : StatusUpdate)
    (comp : Complaint.t) (answer : HTTPException + Complaint.t) :
  dict_get complaint_id db = Some comp ->
  update_status complaint_id payload db = (answer, db') ->
  total (stats db') = total (stats db)
  /\ by_category (stats db') = by_category (stats db)
  /\ (forall s,
        stats_count s (stats db')
          + (if Status_eqb (Complaint.status comp) s then 1 else 0)
        = stats_count s (stats db)
          + (if Status_eqb (new_status payload) s then 1 else 0)).
Proof.
  intros Hget. unfold update_status. rewrite Hget. intros [= <- <-].
  split; [|split].
  - unfold stats. cbn [total]. apply dict_len_set_present. congruence.
  - rewrite !by_category_of_values. apply eq_sym, fold_count_category_ext.
    apply (dict_set_values_Forall2 _ db complaint_id comp); auto.
  - intros s. rewrite !stats_count_with_status.
    rewrite <- (has_status_Status_eqb s comp).
    rewrite (count_with_status_set s db complaint_id comp _ Hget).
    now rewrite has_status_Status_eqb.
Qed.

Lemma update_status_stats_witness :
  let r := update_status "CC2026-00FF10" (mkStatusUpdate Resolved) sample_db in
  exists comp,
    dict_get "CC2026-00FF10" sample_db = Some comp
    /\ total (stats (snd r)) = total (stats sample_db)
    /\ by_category (stats (snd r)) = by_category (stats sample_db)
    /\ resolved (stats (snd r)) + 0 = resolved (stats sample_db) + 1.
Proof.
  intros r.
  destruct (dict_get "CC2026-00FF10" sample_db) as [comp|] eqn:Hget;
    [|discriminate Hget].
  exists comp. split; [reflexivity|].
  destruct (update_status_stats sample_db (snd r) "CC2026-00FF10"
              (mkStatusUpdate Resolved) comp (fst r) Hget eq_refl)
    as (Ht & Hc & Hs).
  split; [exact Ht|]. split; [exact Hc|].
  injection Hget as <-. exact (Hs Resolved).
Defined.

Section ListSortRelated.
Context {A : Type} (key : A -> datetime.t) (R : A -> A -> Prop).
Hypothesis R_key : forall a b, R a b -> key a = key b.

Lemma insort_Forall2 (x x' : A) (l l' : list A) :
  R x x' -> Forall2 R l l' ->
  Forall2 R (insort key x l) (insort key x' l').
Proof.
  intros Hx H. induction H as [|y y' l l' Hy Hl IH]; simpl.
  - repeat constructor. exact Hx.
  - rewrite (R_key _ _ Hx), (R_key _ _ Hy).
    destruct (datetime.ltb (key y') (key x')); repeat constructor; auto.
Qed.

Lemma sort_ascending_Forall2 (l l' : list A) :
  Forall2 R l l' ->
  Forall2 R (sort_ascending key l) (sort_ascending key l').
Proof.
  induction 1 as [|x x' l l' Hx Hl IH]; simpl; [constructor|].
  now apply insort_Forall2.
Qed.

Lemma Forall2_rev_rev (l l' : list A) :
  Forall2 R l l' -> Forall2 R (rev l) (rev l').
Proof.
  induction 1 as [|x x' l l' Hx Hl IH]; simpl; [constructor|].
  apply Forall2_app; [exact IH | repeat constructor; exact Hx].
Qed.

(** Lists that agree on the keys, position by position, are sorted by the
    same rearrangement. *)
Lemma list_sort_Forall2 (reverse : bool) (l l' : list A) :
  Forall2 R l l' ->
  Forall2 R (list_sort key reverse l) (list_sort key reverse l').
Proof.
  intros H. unfold list_sort. destruct reverse.
  - now apply Forall2_rev_rev, sort_ascending_Forall2, Forall2_rev_rev.
  - now apply sort_ascending_Forall2.
Qed.
End ListSortRelated.

Lemma same_but_status_refl (c : Complaint.t) : same_but_status c c.
Proof. now repeat split. Qed.

Lemma Forall2_map_eq {A B : Type} (f : A -> B) (R : A -> A -> Prop)
    (l l' : list A) :
  (forall a b, R a b -> f a = f b) ->
  Forall2 R l l' -> map f l = map f l'.
Proof.
  intros Hf. induction 1 as [|x x' l l' Hx Hl IH]; simpl; [reflexivity|].
  now rewrite (Hf _ _ Hx), IH.
Qed.

(** X7: an update of a stored id does not reorder the unfiltered listing:
    entry by entry, the listing after the update shows the records of the
    listing before it, equal up to their status; the ids appear in the
    same order. *)
Theorem update_status_keeps_listing_order
    (db db' : DB) (complaint_id : string) (payload : StatusUpdate)
    (comp : Complaint.t) (answer : HTTPException + Complaint.t) :
  dict_get complaint_id db = Some comp ->
  update_status complaint_id payload db = (answer, db') ->
  Forall2 same_but_status (list_complaints None db) (list_complaints None db')
  /\ map Complaint.complaint_id (list_complaints None db')
     = map Complaint.complaint_id (list_complaints None db).
Proof.
  intros Hget. unfold update_status. rewrite Hget. intros [= <- <-].
  assert (H : Forall2 same_but_status (list_complaints None db)
                (list_complaints None
                   (dict_set complaint_id
                      (Complaint.set_status comp (new_status payload)) db))).
  { rewrite !list_complaints_selected. cbn [selected].
    apply list_sort_Forall2.
    - intros a b (_ & Hts & _). exact Hts.
    - apply (dict_set_values_Forall2 _ db complaint_id comp);
        [exact same_but_status_refl | exact Hget | now repeat split]. }
  split; [exact H|].
  symmetry. apply (Forall2_map_eq _ same_but_status); [|exact H].
  intros a b (Hid & _). exact Hid.
Qed.

Lemma update_status_keeps_listing_order_witness :
  let r := update_status "CC2026-00FF10" (mkStatusUpdate Resolved) sample_db in
  exists comp,
    dict_get "CC2026-00FF10" sample_db = Some comp
    /\ map Complaint.complaint_id (list_complaints None (snd r))
       = map Complaint.complaint_id (list_complaints None sample_db).
Proof.
  intros r.
  destruct (dict_get "CC2026-00FF10" sample_db) as [comp|] eqn:Hget;
    [|discriminate Hget].
  exists comp. split; [reflexivity|].
  exact (proj2 (update_status_keeps_listing_order sample_db (snd r)
                  "CC2026-00FF10" (mkStatusUpdate Resolved) comp (fst r)
                  Hget eq_refl)).
Defined.

(* ================================================================= *)
(** ** [create_complaint] followed by the other handlers *)

(** X8: a complaint that was just created can be updated: an update of the
    id that [create_complaint] returned is never answered with 404; it
    returns the created record with the requested status. *)
Theorem create_then_update_status
    (env : CreateEnv) (payload : ComplaintIn.t) (upd : StatusUpdate)
    (db : DB) :
  let created := create_complaint env payload db in
  fst (update_status (Complaint.complaint_id (fst created)) upd (snd created))
  = inr (Complaint.set_status (fst created) (new_status upd)).
Proof.
  unfold create_complaint, update_status. cbn [fst snd Complaint.complaint_id
    Complaint.construct].
  now rewrite dict_get_set_same.
Qed.

(** X9: a complaint that was just created is listed: it appears in the
    unfiltered listing and in the listing of the pending complaints, and in
    no listing under another status. *)
Theorem create_then_list_complaints
    (env : CreateEnv) (payload : ComplaintIn.t) (db : DB) :
  let created := create_complaint env payload db in
  In (fst created) (list_complaints None (snd created))
  /\ (forall s, In (fst created) (list_complaints (Some s) (snd created))
                <-> s = Pending).
Proof.
  cbv zeta.
  assert (Hin : In (fst (create_complaint env payload db))
                  (dict_values (snd (create_complaint env payload db)))).
  { unfold create_complaint. cbn [fst snd].
    apply (in_map snd _ (make_cid env, _)).
    apply dict_get_Some_In, dict_get_set_same. }
  split.
  - rewrite list_complaints_selected.
    apply (Permutation_in _
             (Permutation_sym (list_sort_Permutation _ true _))).
    exact Hin.
  - intros s. rewrite list_complaints_selected. split.
    + intros H.
      apply (Permutation_in _ (list_sort_Permutation _ true _)) in H.
      apply filter_In in H. destruct H as [_ H].
      apply has_status_iff in H. now rewrite <- H.
    + intros ->.
      apply (Permutation_in _
               (Permutation_sym (list_sort_Permutation _ true _))).
      apply filter_In. split; [exact Hin | reflexivity].
Qed.

Lemma by_category_default (db : DB) (cat : Category) :
  dict_get_default (Category_str cat) 0 (by_category (stats db))
  = count_in_category cat db.
Proof.
  unfold dict_get_default. rewrite by_category_get.
  now destruct (count_in_category cat db).
Qed.

Lemma create_complaint_values_fresh
    (env : CreateEnv) (payload : ComplaintIn.t) (db : DB) :
  ~ In (make_cid env) (dict_keys db) ->
  dict_values (snd (create_complaint env payload db))
  = dict_values db ++ [fst (create_complaint env payload db)].
Proof.
  intros Hfresh. apply dict_get_None_iff in Hfresh.
  unfold create_complaint. cbn [fst snd].
  rewrite (dict_set_absent _ _ _ Hfresh).
  unfold dict_values. now rewrite map_app.
Qed.

(** X10: what a creation does to [stats].  Under an id that is new to the
    store, [total] and [pending] grow by one, [in_progress] and [resolved]
    stay, and in [by_category] the count of the category of the payload
    grows by one while every other count stays.  Under an id that the
    store already has, [total] stays as it is. *)
Theorem create_complaint_stats
    (env : CreateEnv) (payload : ComplaintIn.t) (db : DB) :
  let db' := snd (create_complaint env payload db) in
  (~ In (make_cid env) (dict_keys db) ->
     total (stats db') = S (total (stats db))
     /\ pending (stats db') = S (pending (stats db))
     /\ in_progress (stats db') = in_progress (stats db)
     /\ resolved (stats db') = resolved (stats db)
     /\ (forall cat,
           dict_get_default (Category_str cat) 0 (by_category (stats db'))
           = dict_get_default (Category_str cat) 0 (by_category (stats db))
             + (if Category_eqb (ComplaintIn.category payload) cat
                then 1 else 0)))
  /\ (In (make_cid env) (dict_keys db) ->
        total (stats db') = total (stats db)).
Proof.
  cbv zeta. split.
  - intros Hfresh.
    pose proof (create_complaint_values_fresh env payload db Hfresh) as Hv.
    destruct (stats_fields db) as (Ht & Hp & Hi & Hr).
    destruct (stats_fields (snd (create_complaint env payload db)))
      as (Ht' & Hp' & Hi' & Hr').
    rewrite Ht, Hp, Hi, Hr, Ht', Hp', Hi', Hr'.
    unfold count_with_status. rewrite Hv, !filter_app, !length_app.
    cbn [filter fst create_complaint has_status Complaint.status
         Complaint.construct List.length].
    repeat split; try lia.
    intros cat. rewrite !by_category_default. unfold count_in_category.
    rewrite Hv, filter_app, length_app.
    cbn [filter fst create_complaint Complaint.category Complaint.construct].
    now destruct (Category_eqb (ComplaintIn.category payload) cat).
  - intros Hin. unfold stats, create_complaint. cbn [total snd].
    apply dict_len_set_present. rewrite dict_get_None_iff. tauto.
Qed.

Lemma create_complaint_stats_witness :
  let env := sample_env 0xC0FFEE 4 in
  let db' := snd (create_complaint env (sample_payload Water) sample_db) in
  ~ In (make_cid env) (dict_keys sample_db)
  /\ total (stats db') = 4
  /\ pending (stats db') = 4
  /\ dict_get_default "Water" 0 (by_category (stats db')) = 2.
Proof.
  intros env db'.
  assert (Hfresh : ~ In (make_cid env) (dict_keys sample_db)).
  { vm_compute. intros [H|[H|[H|[]]]]; discriminate H. }
  split; [exact Hfresh|].
  destruct (create_complaint_stats env (sample_payload Water) sample_db)
    as (H & _).
  destruct (H Hfresh) as (Ht & Hp & _ & _ & Hc).
  split; [exact Ht|]. split; [exact Hp|]. exact (Hc Water).
Defined.

(* ================================================================= *)
(** ** Which requests get the same id *)

Lemma substring_prefix_app (n : nat) (s t : string) :
  n <= String.length s ->
  substring 0 n (s ++ t)%string = substring 0 n s.
Proof.
  revert s. induction n as [|n IH]; intros [|c s]; simpl; intros H;
    try reflexivity; try lia.
  - now destruct t.
  - rewrite IH; [reflexivity | lia].
Qed.

Lemma substring_whole (s : string) : substring 0 (String.length s) s = s.
Proof. induction s as [|c s IH]; simpl; congruence. Qed.

(** The leading digits of a rendering are the rendering of the leading
    bits. *)
Lemma prefix_hex_of (w k : nat) (n : N) :
  Py.prefix w (Py.hex_of (w + k) n) = Py.hex_of w (n / 16 ^ N.of_nat k)%N.
Proof.
  unfold Py.prefix. revert n. induction k as [|k IH]; intros n.
  - rewrite Nat.add_0_r. simpl (16 ^ N.of_nat 0)%N. rewrite N.div_1_r.
    rewrite <- (hex_of_length w n) at 1. apply substring_whole.
  - rewrite <- plus_n_Sm. cbn [Py.hex_of].
    rewrite substring_prefix_app by (rewrite hex_of_length; lia).
    rewrite IH, N.Div0.div_div.
    now rewrite Nat2N.inj_succ, N.pow_succ_r'.
Qed.

Lemma uuid_hex_prefix (int : N) :
  Py.prefix 6 (uuid_hex int) = Py.hex_of 6 (int / 2 ^ 104)%N.
Proof.
  unfold uuid_hex. change 32 with (6 + 26). rewrite prefix_hex_of.
  reflexivity.
Qed.

Lemma make_cid_top_bits (env : CreateEnv) :
  make_cid env
  = ("CC" ++ Py.str_of_int (datetime.year (utcnow_for_id env)) ++ "-"
     ++ Py.upper (Py.hex_of 6 (uuid4_int env / 2 ^ 104)%N))%string.
Proof. unfold make_cid. now rewrite uuid_hex_prefix. Qed.

(** X11: the id depends on the UUID through its 24 leading bits only: two
    requests served in the same year whose UUIDs agree above bit 104 get
    the same id, and then the second record takes the place of the first
    in the store, whose size stays the same. *)
Theorem make_cid_same_leading_bits (env1 env2 : CreateEnv) :
  datetime.year (utcnow_for_id env1) = datetime.year (utcnow_for_id env2) ->
  (uuid4_int env1 / 2 ^ 104 = uuid4_int env2 / 2 ^ 104)%N ->
  make_cid env1 = make_cid env2
  /\ (forall (p1 p2 : ComplaintIn.t) (db : DB),
        let db1 := snd (create_complaint env1 p1 db) in
        let r2 := create_complaint env2 p2 db1 in
        dict_get (make_cid env1) (snd r2) = Some (fst r2)
        /\ dict_keys (snd r2) = dict_keys db1
        /\ dict_len (snd r2) = dict_len db1).
Proof.
  intros Hyear Hbits.
  assert (Hcid : make_cid env1 = make_cid env2).
  { rewrite !make_cid_top_bits. now rewrite Hyear, Hbits. }
  split; [exact Hcid|].
  intros p1 p2 db. cbv zeta. unfold create_complaint. cbn [fst snd].
  rewrite <- Hcid.
  assert (Hpresent : dict_get (make_cid env1)
                       (dict_set (make_cid env1)
                          (Complaint.construct (make_cid env1) p1
                             (utcnow_for_timestamp env1)) db) <> None).
  { rewrite dict_get_set_same. discriminate. }
  split; [apply dict_get_set_same|].
  split; [now apply dict_keys_set_present
         | now apply dict_len_set_present].
Qed.

Lemma make_cid_same_leading_bits_witness :
  datetime.year (utcnow_for_id colliding_env1)
  = datetime.year (utcnow_for_id colliding_env2)
  /\ (uuid4_int colliding_env1 / 2 ^ 104
      = uuid4_int colliding_env2 / 2 ^ 104)%N
  /\ uuid4_int colliding_env1 <> uuid4_int colliding_env2
  /\ make_cid colliding_env1 = make_cid colliding_env2.
Proof.
  assert (Hy : datetime.year (utcnow_for_id colliding_env1)
               = datetime.year (utcnow_for_id colliding_env2)) by reflexivity.
  assert (Hb : (uuid4_int colliding_env1 / 2 ^ 104
                = uuid4_int colliding_env2 / 2 ^ 104)%N)
    by (vm_compute; reflexivity).
  split; [exact Hy|]. split; [exact Hb|].
  split; [vm_compute; discriminate|].
  exact (proj1 (make_cid_same_leading_bits colliding_env1 colliding_env2
                  Hy Hb)).
Defined.

Lemma upper_app (s t : string) :
  Py.upper (s ++ t)%string = (Py.upper s ++ Py.upper t)%string.
Proof. induction s as [|c s IH]; simpl; congruence. Qed.

Lemma int_of_hex_from_app (acc : N) (s t : string) :
  int_of_hex_from acc (s ++ t)%string
  = int_of_hex_from (int_of_hex_from acc s) t.
Proof. revert acc. induction s as [|c s IH]; intros acc; simpl; auto. Qed.

Lemma hex_digit_value_upper (n : N) :
  hex_digit_value (Py.upper_ascii (Py.hex_digit (n mod 16))) = (n mod 16)%N.
Proof.
  assert (H : (n mod 16 < 16)%N) by (apply N.mod_lt; discriminate).
  revert H. generalize (n mod 16)%N. intros d Hd.
  destruct d as [|p]; [reflexivity|].
  do 4 (destruct p as [p|p|]; try reflexivity; try lia).
Qed.

(** Reading the upper-case rendering back gives the number, as far as the
    width goes. *)
Lemma int_of_hex_upper_hex_of (width : nat) (n : N) :
  int_of_hex (Py.upper (Py.hex_of width n))
  = (n mod 16 ^ N.of_nat width)%N.
Proof.
  unfold int_of_hex. revert n.
  induction width as [|w IH]; intros n.
  - simpl. now rewrite N.mod_1_r.
  - cbn [Py.hex_of]. rewrite upper_app, int_of_hex_from_app, IH.
    cbn [Py.upper int_of_hex_from]. rewrite hex_digit_value_upper.
    rewrite Nat2N.inj_succ, N.pow_succ_r', N.Div0.mod_mul_r. lia.
Qed.

Lemma int_of_str_of_int (n : Z) : int_of_str (Py.str_of_int n) = Some n.
Proof.
  unfold int_of_str, Py.str_of_int.
  rewrite NilZero.isi.
  - simpl. now rewrite DecimalZ.of_to.
  - destruct n as [|p|p]; simpl; try discriminate.
    intros [= H]. exact (Unsigned.to_uint_nonnil p H).
  - destruct n as [|p|p]; simpl; try discriminate.
    intros [= H]. exact (Unsigned.to_uint_nonnil p H).
Qed.

Lemma make_cid_year_and_bits (env : CreateEnv) :
  (1000 <= datetime.year (utcnow_for_id env) <= 9999)%Z ->
  (uuid4_int env < 2 ^ 128)%N ->
  int_of_str (substring 2 4 (make_cid env))
  = Some (datetime.year (utcnow_for_id env))
  /\ int_of_hex (substring 7 6 (make_cid env))
     = (uuid4_int env / 2 ^ 104)%N.
Proof.
  intros Hyear Hu.
  destruct (make_cid_format env Hyear) as (_ & Hy & Hx).
  rewrite Hy, Hx, uuid_hex_prefix, int_of_str_of_int,
    int_of_hex_upper_hex_of.
  split; [reflexivity|].
  apply N.mod_small.
  apply N.Div0.div_lt_upper_bound.
  change (2 ^ 104 * 16 ^ N.of_nat 6)%N with (2 ^ 128)%N. exact Hu.
Qed.

(** X12: the id can be read back.  With the clock in a year of four digits
    and a UUID of 128 bits, the four digits after [CC] are the decimal
    numeral of the year and the six digits after the dash are the
    hexadecimal numeral of the 24 leading bits of the UUID. *)
Theorem make_cid_reads_back (env : CreateEnv) :
  (1000 <= datetime.year (utcnow_for_id env) <= 9999)%Z ->
  (uuid4_int env < 2 ^ 128)%N ->
  int_of_str (substring 2 4 (make_cid env))
  = Some (datetime.year (utcnow_for_id env))
  /\ int_of_hex (substring 7 6 (make_cid env))
     = (uuid4_int env / 2 ^ 104)%N.
Proof. exact (make_cid_year_and_bits env). Qed.

Lemma make_cid_reads_back_witness :
  let env := sample_env 0xC0FFEE 4 in
  (1000 <= datetime.year (utcnow_for_id env) <= 9999)%Z
  /\ (uuid4_int env < 2 ^ 128)%N
  /\ int_of_str (substring 2 4 (make_cid env)) = Some 2026%Z
  /\ int_of_hex (substring 7 6 (make_cid env)) = 0xC0FFEE%N.
Proof.
  intros env.
  assert (Hy : (1000 <= datetime.year (utcnow_for_id env) <= 9999)%Z)
    by (simpl; lia).
  assert (Hu : (uuid4_int env < 2 ^ 128)%N) by (vm_compute; reflexivity).
  split; [exact Hy|]. split; [exact Hu|].
  destruct (make_cid_reads_back env Hy Hu) as (H1 & H2).
  split; [exact H1|]. rewrite H2. vm_compute. reflexivity.
Defined.

(** X13: two requests get the same id exactly when they are served in the
    same year and their UUIDs agree in the 24 leading bits (clock in a year
    of four digits, UUIDs of 128 bits). *)
Theorem make_cid_collision_iff (env1 env2 : CreateEnv) :
  (1000 <= datetime.year (utcnow_for_id env1) <= 9999)%Z ->
  (1000 <= datetime.year (utcnow_for_id env2) <= 9999)%Z ->
  (uuid4_int env1 < 2 ^ 128)%N ->
  (uuid4_int env2 < 2 ^ 128)%N ->
  make_cid env1 = make_cid env2
  <-> datetime.year (utcnow_for_id env1) = datetime.year (utcnow_for_id env2)
      /\ (uuid4_int env1 / 2 ^ 104 = uuid4_int env2 / 2 ^ 104)%N.
Proof.
  intros Hy1 Hy2 Hu1 Hu2.
  destruct (make_cid_year_and_bits env1 Hy1 Hu1) as (Hyear1 & Hbits1).
  destruct (make_cid_year_and_bits env2 Hy2 Hu2) as (Hyear2 & Hbits2).
  split.
  - intros Hcid. rewrite Hcid in Hyear1, Hbits1.
    split; congruence.
  - intros [Hyear Hbits]. rewrite !make_cid_top_bits.
    now rewrite Hyear, Hbits.
Qed.

Lemma make_cid_collision_iff_witness :
  let env1 := sample_env 0xA1B2C3 1 in
  let env2 := sample_env 0x00FF10 2 in
  (1000 <= datetime.year (utcnow_for_id env1) <= 9999)%Z
  /\ (1000 <= datetime.year (utcnow_for_id env2) <= 9999)%Z
  /\ (uuid4_int env1 < 2 ^ 128)%N
  /\ (uuid4_int env2 < 2 ^ 128)%N
  /\ (uuid4_int env1 / 2 ^ 104 <> uuid4_int env2 / 2 ^ 104)%N
  /\ make_cid env1 <> make_cid env2.
Proof.
  intros env1 env2.
  assert (Hy1 : (1000 <= datetime.year (utcnow_for_id env1) <= 9999)%Z)
    by (simpl; lia).
  assert (Hy2 : (1000 <= datetime.year (utcnow_for_id env2) <= 9999)%Z)
    by (simpl; lia).
  assert (Hu1 : (uuid4_int env1 < 2 ^ 128)%N) by (vm_compute; reflexivity).
  assert (Hu2 : (uuid4_int env2 < 2 ^ 128)%N) by (vm_compute; reflexivity).
  assert (Hne : (uuid4_int env1 / 2 ^ 104 <> uuid4_int env2 / 2 ^ 104)%N)
    by (vm_compute; discriminate).
  repeat (split; [assumption|]).
  intros Hcid.
  apply (make_cid_collision_iff env1 env2 Hy1 Hy2 Hu1 Hu2) in Hcid.
  exact (Hne (proj2 Hcid)).
Defined.

(* ================================================================= *)
(** ** What holds of every store the handlers produce *)

(** Striking complaints out of a list with pairwise different ids leaves
    the ids pairwise different. *)
Lemma filter_keeps_ids_distinct
    (keep : Complaint.t -> bool) (cs : list Complaint.t) :
  NoDup (map Complaint.complaint_id cs) ->
  NoDup (map Complaint.complaint_id (filter keep cs)).
Proof.
  intros Hcs. induction cs as [|c cs IH]; cbn [filter map] in *.
  - exact Hcs.
  - apply NoDup_cons_iff in Hcs. destruct Hcs as [Hc Hcs].
    destruct (keep c); cbn [map]; [|now apply IH].
    apply NoDup_cons; [|now apply IH].
    contradict Hc. apply in_map_iff in Hc. destruct Hc as (c' & Hid & Hc').
    apply filter_In in Hc'. apply in_map_iff. exists c'. tauto.
Qed.

(** X14: in every store that calls of [create_complaint] and
    [update_status] produce from the empty one, no key occurs twice, every
    record is stored under its own [complaint_id], and no listing, filtered
    or not, shows the same id twice. *)
Theorem reachable_ids_unique (db : DB) :
  reachable db ->
  dict_wf db
  /\ keyed_by_id db
  /\ (forall status,
        NoDup (map Complaint.complaint_id (list_complaints status db))).
Proof.
  intros Hr. destruct (reachable_invariant db Hr) as (Hwf & Hkey & Hids).
  split; [exact Hwf|]. split; [exact Hkey|].
  intros status. rewrite list_complaints_selected.
  apply (Permutation_NoDup
           (Permutation_map Complaint.complaint_id
              (Permutation_sym
                 (list_sort_Permutation Complaint.timestamp true
                    (selected status db))))).
  destruct status as [s|]; cbn [selected]; [|exact Hids].
  now apply filter_keeps_ids_distinct.
Qed.

Lemma reachable_sample_requests : reachable sample_requests.
Proof. unfold sample_requests. repeat constructor. Qed.

Lemma reachable_ids_unique_witness :
  reachable sample_db
  /\ NoDup (map Complaint.complaint_id (list_complaints None sample_db)).
Proof.
  assert (Hr : reachable sample_db).
  { rewrite sample_db_requests. exact reachable_sample_requests. }
  split; [exact Hr|].
  destruct (reachable_ids_unique sample_db Hr) as (_ & _ & H).
  exact (H None).
Defined.

Lemma create_complaint_keys
    (env : CreateEnv) (payload : ComplaintIn.t) (db : DB) :
  exists later,
    dict_keys (snd (create_complaint env payload db)) = dict_keys db ++ later.
Proof.
  unfold create_complaint. cbn [snd].
  destruct (dict_get (make_cid env) db) as [c|] eqn:E.
  - exists []. rewrite app_nil_r. apply dict_keys_set_present. congruence.
  - exists [make_cid env]. rewrite (dict_set_absent _ _ _ E).
    unfold dict_keys. now rewrite map_app.
Qed.

Lemma update_status_keys
    (complaint_id : string) (payload : StatusUpdate) (db : DB) :
  dict_keys (snd (update_status complaint_id payload db)) = dict_keys db.
Proof.
  rewrite update_status_store.
  destruct (dict_get complaint_id db) eqn:E; [|reflexivity].
  apply dict_keys_set_present. congruence.
Qed.

(** X15: nothing is ever deleted.  Whatever calls of the handlers follow,
    the ids of the store stay where they are and new ids are added behind
    them: the keys afterwards are the keys before followed by the later
    ones, so every id that was stored is still stored and the store does
    not shrink. *)
Theorem evolves_keeps_ids (db db' : DB) :
  evolves db db' ->
  (exists later, dict_keys db' = dict_keys db ++ later)
  /\ (forall k, In k (dict_keys db) -> In k (dict_keys db'))
  /\ dict_len db <= dict_len db'.
Proof.
  intros H.
  assert (Hkeys : exists later, dict_keys db' = dict_keys db ++ later).
  { induction H as [|env payload db' _ [later IH]
                     |complaint_id payload db' _ [later IH]].
    - exists []. now rewrite app_nil_r.
    - destruct (create_complaint_keys env payload db') as [more Hmore].
      exists (later ++ more). now rewrite Hmore, IH, app_assoc.
    - exists later. now rewrite update_status_keys. }
  split; [exact Hkeys|].
  destruct Hkeys as [later Hkeys]. split.
  - intros k Hk. rewrite Hkeys. apply in_or_app. now left.
  - unfold dict_len.
    rewrite <- (length_map fst db'), <- (length_map fst db).
    fold (dict_keys db') (dict_keys db).
    rewrite Hkeys, length_app. lia.
Qed.

Lemma evolves_keeps_ids_witness :
  let db' := snd (update_status "CC2026-A1B2C3" (mkStatusUpdate Resolved)
                    (snd (create_complaint (sample_env 0xC0FFEE 4)
                            (sample_payload Health) sample_db))) in
  evolves sample_db db'
  /\ (forall k, In k (dict_keys sample_db) -> In k (dict_keys db'))
  /\ dict_len sample_db <= dict_len db'.
Proof.
  intros db'.
  assert (He : evolves sample_db db') by (repeat constructor).
  split; [exact He|].
  exact (proj2 (evolves_keeps_ids sample_db db' He)).
Defined.

(* ================================================================= *)
(** ** Validation of dumped fields *)

Lemma Category_of_str (c : Category) : Category_of (Category_str c) = Some c.
Proof. now destruct c. Qed.

Lemma Priority_of_str (p : Priority) : Priority_of (Priority_str p) = Some p.
Proof. now destruct p. Qed.

Lemma Level_of_str (l : Level) : Level_of (Level_str l) = Some l.
Proof. now destruct l. Qed.

Lemma optional_dump {A : Type} (loc : string) (o : option A) :
  optional loc (dump_optional o) = inr o.
Proof. now destruct o. Qed.

Lemma validate_model_dump (payload : ComplaintIn.t) :
  validate_ComplaintIn (model_dump payload) = inr payload.
Proof.
  unfold validate_ComplaintIn, model_dump.
  cbn [ComplaintBody.user_id ComplaintBody.text ComplaintBody.voice_url
       ComplaintBody.category ComplaintBody.priority ComplaintBody.level
       ComplaintBody.district ComplaintBody.location
       ComplaintBody.assigned_to required literal].
  rewrite !optional_dump, Category_of_str, Priority_of_str, Level_of_str.
  now destruct payload.
Qed.

(** X16: the fields of a validated payload always validate again, to the
    same payload: the three [Literal] fields are spelled by strings their
    type accepts, and an absent optional field stays absent.  So building
    the [Complaint] from [payload.model_dump()] cannot fail, and a body
    that carries these fields is accepted and handled as
    [create_complaint] handles the payload. *)
Theorem model_dump_validates
    (env : CreateEnv) (payload : ComplaintIn.t) (db : DB) :
  validate_ComplaintIn (model_dump payload) = inr payload
  /\ enums_valid (model_dump payload) = true
  /\ post_complaints env (model_dump payload) db
     = (inr (fst (create_complaint env payload db)),
        snd (create_complaint env payload db)).
Proof.
  split; [apply validate_model_dump|]. split.
  - unfold enums_valid, model_dump, in_literal.
    cbn [ComplaintBody.category ComplaintBody.priority ComplaintBody.level].
    now rewrite Category_of_str, Priority_of_str, Level_of_str.
  - unfold post_complaints. rewrite validate_model_dump.
    now destruct (create_complaint env payload db).
Qed.

(* ================================================================= *)
(** ** Listings of stores filled by an advancing clock *)

Section ListSortIncreasing.
Context {A : Type} (key : A -> datetime.t).

Lemma insort_above_all (x : A) (l : list A) :
  Forall (fun z => datetime.ltb (key z) (key x) = true) l ->
  insort key x l = l ++ [x].
Proof.
  induction 1 as [|z l Hz Hl IH]; simpl; [reflexivity|].
  now rewrite Hz, IH.
Qed.

Lemma StronglySorted_snoc_inv (R : A -> A -> Prop) (l : list A) (x : A) :
  StronglySorted R (l ++ [x]) ->
  StronglySorted R l /\ Forall (fun z => R z x) l.
Proof.
  induction l as [|y l IH]; simpl; intros H.
  - split; constructor.
  - inversion H as [|? ? Hs Hy]; subst.
    destruct (IH Hs) as [Hl Hx].
    apply Forall_app in Hy. destruct Hy as [Hyl Hyx].
    split; constructor; auto. now inversion Hyx.
Qed.

(** A list whose keys strictly increase is sorted, under [reverse=True],
    into its reverse. *)
Lemma list_sort_reverse_increasing (l : list A) :
  StronglySorted (fun a b => datetime.ltb (key a) (key b) = true) l ->
  list_sort key true l = rev l.
Proof.
  intros H. unfold list_sort. f_equal.
  induction l as [|x l IH] using rev_ind; [reflexivity|].
  apply StronglySorted_snoc_inv in H. destruct H as [Hl Hx].
  rewrite rev_app_distr. simpl. rewrite (IH Hl).
  now apply insort_above_all.
Qed.
End ListSortIncreasing.

Lemma StronglySorted_filter {A : Type} (R : A -> A -> Prop) (p : A -> bool)
    (l : list A) :
  StronglySorted R l -> StronglySorted R (filter p l).
Proof.
  induction 1 as [|x l Hs IH Hx]; simpl; [constructor|].
  destruct (p x); [|exact IH].
  constructor; [exact IH|].
  apply Forall_forall. intros z Hz. apply filter_In in Hz.
  destruct Hz as [Hz _]. revert z Hz. now apply Forall_forall.
Qed.

(** X17: when the timestamps strictly increase along the store (the clock
    advanced between the creations), a listing is the stored complaints,
    or those of the requested status, in the reverse of the order of the
    store, however many there are. *)
Theorem list_complaints_reverse_of_store (status : option Status) (db : DB) :
  StronglySorted strictly_older (dict_values db) ->
  list_complaints status db = rev (selected status db).
Proof.
  intros H. rewrite list_complaints_selected.
  apply list_sort_reverse_increasing.
  destruct status as [s|]; cbn [selected]; [|exact H].
  now apply StronglySorted_filter.
Qed.

Lemma list_complaints_reverse_of_store_witness :
  StronglySorted strictly_older (dict_values sample_db)
  /\ map Complaint.complaint_id (list_complaints None sample_db)
     = ["CC2026-5E5E5E"; "CC2026-00FF10"; "CC2026-A1B2C3"].
Proof.
  assert (H : StronglySorted strictly_older (dict_values sample_db)).
  { repeat constructor. }
  split; [exact H|].
  rewrite (list_complaints_reverse_of_store None sample_db H).
  reflexivity.
Defined.

(** X18: after an update of a stored id the record that was returned is
    listed under the new status and under no other one, and it is in the
    unfiltered listing. *)
Theorem update_status_then_list_complaints
    (db db' : DB) (complaint_id : string) (payload : StatusUpdate)
    (updated : Complaint.t) :
  update_status complaint_id payload db = (inr updated, db') ->
  In updated (list_complaints None db')
  /\ (forall s, In updated (list_complaints (Some s) db')
                <-> s = new_status payload).
Proof.
  unfold update_status.
  destruct (dict_get complaint_id db) as [comp|] eqn:E; [|discriminate].
  intros [= <- <-].
  assert (Hin : In (Complaint.set_status comp (new_status payload))
                  (dict_values
                     (dict_set complaint_id
                        (Complaint.set_status comp (new_status payload))
                        db))).
  { apply (in_map snd _ (complaint_id, _)).
    apply dict_get_Some_In, dict_get_set_same. }
  split.
  - rewrite list_complaints_selected.
    apply (Permutation_in _
             (Permutation_sym (list_sort_Permutation _ true _))).
    exact Hin.
  - intros s. rewrite list_complaints_selected. split.
    + intros H.
      apply (Permutation_in _ (list_sort_Permutation _ true _)) in H.
      apply filter_In in H. destruct H as [_ H].
      apply has_status_iff in H. now rewrite <- H.
    + intros ->.
      apply (Permutation_in _
               (Permutation_sym (list_sort_Permutation _ true _))).
      apply filter_In. split; [exact Hin|].
      now apply has_status_iff.
Qed.

Lemma update_status_then_list_complaints_witness :
  let r := update_status "CC2026-00FF10" (mkStatusUpdate Resolved) sample_db in
  exists updated,
    fst r = inr updated
    /\ In updated (list_complaints (Some Resolved) (snd r))
    /\ ~ In updated (list_complaints (Some Pending) (snd r)).
Proof.
  intros r.
  destruct (fst r) as [e|updated] eqn:E; [discriminate E|].
  exists updated. split; [reflexivity|].
  assert (Hr : update_status "CC2026-00FF10" (mkStatusUpdate Resolved)
                 sample_db = (inr updated, snd r)).
  { rewrite <- E. reflexivity. }
  destruct (update_status_then_list_complaints sample_db (snd r)
              "CC2026-00FF10" (mkStatusUpdate Resolved) updated Hr)
    as (_ & H).
  split.
  - apply (H Resolved). reflexivity.
  - intros Hin. apply (H Pending) in Hin. discriminate Hin.
Defined.
